(** * redis_cache: a cache-aside layer over Redis and its namespace update manager

    A shallow embedding of [redis_cache/cache_manager.py] (key construction
    and the caching decorator) and of [redis_cache/django_cache_manager.py]
    (the per-namespace call registries and their bulk recomputation),
    followed by the properties proved about them. *)

From Stdlib Require Import ZArith Ascii DecimalString.
From stdpp Require Import base option list gmap strings.

(** ** Python values, exceptions and outcomes *)

(** The fragment of Python objects the two modules manipulate.  An instance
    of a user class carries the text its [__unicode__]/[__str__] returns. *)
Inductive pyval : Type :=
  | PyNone
  | PyBool (b : bool)
  | PyInt (z : Z)
  | PyStr (s : string)
  | PyObj (cls : string) (text : string).

#[global] Instance pyval_eq_dec : EqDecision pyval.
Proof. solve_decision. Defined.

(** [unicode(arg)] *)
Definition unicode (v : pyval) : string :=
  match v with
  | PyNone => "None"
  | PyBool true => "True"
  | PyBool false => "False"
  | PyInt z => NilZero.string_of_int (Z.to_int z)
  | PyStr s => s
  | PyObj _ text => text
  end.

(** Truth value of an object in an [if] test. *)
Definition truthy (v : pyval) : bool :=
  match v with
  | PyNone => false
  | PyBool b => b
  | PyInt z => negb (z =? 0)%Z
  | PyStr s => negb (String.eqb s "")
  | PyObj _ _ => true
  end.

(** Exception classes.  [SystemExit] and [KeyboardInterrupt] derive from
    [BaseException] only, so [except Exception] does not catch them. *)
Inductive pyexc : Type :=
  | AttributeError
  | ValueError
  | TypeError
  | ResponseError
  | ConnectionError
  | UnpicklingError
  | KeyError
  | UserException (cls : string)
  | SystemExit
  | KeyboardInterrupt.

#[global] Instance pyexc_eq_dec : EqDecision pyexc.
Proof. solve_decision. Defined.

Definition isinstance_Exception (e : pyexc) : bool :=
  match e with
  | SystemExit | KeyboardInterrupt => false
  | _ => true
  end.

(** What evaluating a call produces: a value or a raised exception. *)
Inductive outcome (A : Type) : Type :=
  | Return (a : A)
  | Raise (e : pyexc).
Arguments Return {A} a.
Arguments Raise {A} e.

(** Computations over a state [S] that may raise; the state reached when an
    exception is raised is kept, as Python keeps the effects made so far. *)
Definition M (S A : Type) : Type := S → outcome A * S.

Definition ret {S A} (a : A) : M S A := λ s, (Return a, s).
Definition raise {S A} (e : pyexc) : M S A := λ s, (Raise e, s).
Definition bind {S A B} (m : M S A) (k : A → M S B) : M S B :=
  λ s, match m s with
       | (Return a, s') => k a s'
       | (Raise e, s') => (Raise e, s')
       end.

Notation "x <- m ;; k" := (bind m (λ x, k))
  (at level 20, m at level 99, k at level 200, only parsing).
Notation "m ;; k" := (bind m (λ _, k))
  (at level 100, k at level 200, only parsing, right associativity).

Definition kwargs := list (string * pyval).

(** A [dict] with string keys, as the list of its items in iteration order. *)
Fixpoint dict_get {V} (d : list (string * V)) (name : string) : option V :=
  match d with
  | [] => None
  | (k, v) :: d' => if decide (k = name) then Some v else dict_get d' name
  end.

(** [d[name] = v]: an existing key keeps its place. *)
Fixpoint dict_set {V} (d : list (string * V)) (name : string) (v : V) : list (string * V) :=
  match d with
  | [] => [(name, v)]
  | (k, x) :: d' =>
      if decide (k = name) then (k, v) :: d' else (k, x) :: dict_set d' name v
  end.

(** A Python function object: its [__name__], the names
    [inspect.getargspec(f).args] lists, the class it is bound to when it is
    a method ([im_self] or its class), and what calling it does to the
    state [S] it can reach. *)
Record pyfunc (S : Type) : Type := PyFunc {
  f_name : string;
  f_args : list string;
  f_class : option string;
  f_body : list pyval → kwargs → S → outcome pyval * S
}.
Arguments PyFunc {S}.
Arguments f_name {S}.
Arguments f_args {S}.
Arguments f_class {S}.
Arguments f_body {S}.

(** [sep.join(parts)] *)
Fixpoint join (sep : string) (parts : list string) : string :=
  match parts with
  | [] => ""
  | x :: rest =>
      match rest with
      | [] => x
      | _ :: _ => x +:+ sep +:+ join sep rest
      end
  end.

(** [c in s] for a one-character [c]. *)
Fixpoint contains (c : ascii) (s : string) : bool :=
  match s with
  | EmptyString => false
  | String a s' => if decide (a = c) then true else contains c s'
  end.

Definition colon : ascii := ":"%char.

(** The string holds no separator. *)
Definition colon_free (s : string) : Prop := contains colon s = false.

(** A string that is empty or begins with the separator. *)
Definition at_separator (r : string) : Prop := r = "" ∨ ∃ r', r = String colon r'.

(** What [":".join] adds after the first part: each further part behind a
    separator. *)
Definition tail_parts (parts : list string) : string :=
  foldr (λ x acc, ":" +:+ x +:+ acc) "" parts.

(** ** redis_cache/cache_manager.py *)

Module cache_manager.

(** A handle on a Redis client. *)
Inductive connection_handle : Type := RedisClient (name : string).

Record CacheManager : Type := mkCacheManager {
  _key_base : string;
  _ttl : option Z;
  _connection : option connection_handle
}.

(** [CacheManager.__init__] defaults. *)
Definition default_key_base : string := "cache".

Section Key.
Context {S : Type}.

(** [nameparts]: the function's name, behind the name of its class when
    [inspect.ismethod(f)] holds. *)
Definition nameparts (f : pyfunc S) : list string :=
  match f_class f with
  | Some c => [c; f_name f]
  | None => [f_name f]
  end.

(** [f_args[0] in ('cls', 'self')] *)
Definition is_receiver (a : string) : bool :=
  bool_decide (a = "cls") || bool_decide (a = "self").

(** The index from which the arguments enter the key. *)
Definition skip_count (f : pyfunc S) : nat :=
  match f_args f with
  | a :: _ => if is_receiver a then 1%nat else 0%nat
  | [] => 0%nat
  end.

(** [CacheManager.key], for an [f] whose argument names
    [inspect.getargspec] can list. *)
Definition key (self : CacheManager) (f : pyfunc S) (args : list pyval) : string :=
  let argparts := [_key_base self; join "." (nameparts f)] in
  let argparts :=
    if bool_decide (args ≠ []) && bool_decide (0 < length (f_args f))%nat
    then argparts ++ map unicode (drop (skip_count f) args)
    else argparts in
  join ":" argparts.

(** The key as the specification words it: the prefix, the dotted name
    parts, then the string forms of [call_args[skip_count:]], all joined
    with [":"]. *)
Definition key_spec (self : CacheManager) (f : pyfunc S) (call_args : list pyval) : string :=
  join ":" ([_key_base self; join "." (nameparts f)]
            ++ map unicode (drop (skip_count f) call_args)).
End Key.

(** The Redis database behind the connection: each key holds a byte string
    and, when one was set, a time-to-live in seconds. *)
Abbreviation redis_db := (gmap string (string * option Z)).

(** What an instrumented run observes, in order. *)
Inductive event : Type :=
  | EvGet (key : string)
  | EvCall (name : string) (args : list pyval) (kw : kwargs)
  | EvSet (key : string) (data : string)
  | EvExpire (key : string) (ttl : Z).

(** The state of a run: the database and the events so far.  Every command
    reaches the server, which answers it or refuses it; a connection that
    is lost between two commands is outside this model. *)
Record world : Type := mkWorld {
  db : redis_db;
  log : list event
}.

Definition record_event (ev : event) (w : world) : world :=
  {| db := db w; log := log w ++ [ev] |}.

(** What GET answers for a key: the stored bytes, or [None]. *)
Definition stored (d : redis_db) (k : string) : pyval :=
  match d !! k with
  | Some (b, _) => PyStr b
  | None => PyNone
  end.

(** [connection.get(key)] *)
Definition redis_get (k : string) : M world pyval :=
  λ w, (Return (stored (db w) k), record_event (EvGet k) w).

(** [connection.set(key, data)]: SET replaces the value and drops any
    time-to-live the key had. *)
Definition redis_set (k : string) (b : string) : M world unit :=
  λ w, (Return tt,
        {| db := <[k := (b, None)]> (db w); log := log w ++ [EvSet k b] |}).

(** [connection.expire(key, ttl)].  The server refuses a time-to-live that
    overflows its clock ([accepts ttl] is [false]): the call then raises
    [ResponseError] and the key stays as it was.  Otherwise EXPIRE on a
    missing key does nothing, a positive [ttl] is attached to the key, and a
    non-positive one makes Redis delete the key at once. *)
Definition redis_expire (accepts : Z → bool) (k : string) (ttl : Z) : M world unit :=
  λ w, if accepts ttl then
         (Return tt,
          {| db := match db w !! k with
                   | Some (b, _) =>
                       if bool_decide (0 < ttl)%Z then <[k := (b, Some ttl)]> (db w)
                       else delete k (db w)
                   | None => db w
                   end;
             log := log w ++ [EvExpire k ttl] |})
       else (Raise ResponseError, {| db := db w; log := log w ++ [EvExpire k ttl] |}).

(** Calling [f] with the positional and keyword arguments of the call. *)
Definition call (f : pyfunc redis_db) (args : list pyval) (kw : kwargs) : M world pyval :=
  λ w, let '(o, d) := f_body f args kw (db w) in
       (o, {| db := d; log := log w ++ [EvCall (f_name f) args kw] |}).

(** A pure computation that may raise, run inside [M]. *)
Definition lift {S A} (o : outcome A) : M S A := λ s, (o, s).

(** [if self._ttl:] *)
Definition ttl_set (ttl : option Z) : option Z :=
  match ttl with
  | Some t => if bool_decide (t = 0%Z) then None else Some t
  | None => None
  end.

Section Decorator.
(** [get_current_connection()] of the sibling module [connection]: the
    process-wide connection, if one was installed. *)
Variable get_current_connection : option connection_handle.

(** The serialisation hooks [before_save] and [after_load]; by default
    [cPickle.dumps] and [cPickle.loads]. *)
Variable before_save : pyval → list pyval → kwargs → outcome string.
Variable after_load : pyval → list pyval → kwargs → outcome pyval.

(** The times-to-live the Redis server accepts: those that, added to its
    clock, do not overflow it. *)
Variable accepts_ttl : Z → bool.

(** The [connection] property. *)
Definition connection (self : CacheManager) : option connection_handle :=
  match _connection self with
  | Some c => Some c
  | None => get_current_connection
  end.

(** [CacheManager.load] and [CacheManager.save] *)
Definition load (self : CacheManager) (k : string) : M world pyval := redis_get k.
Definition save (self : CacheManager) (k : string) (data : string) : M world unit :=
  redis_set k data.

(** The [wrapper] closure both [cache] methods build; [ttl] is
    [self._ttl] for [CacheManager.cache] and the decorator's own [ttl]
    for [DefaultCacheManager.cache]. *)
Definition wrapper (self : CacheManager) (ttl : option Z) (f : pyfunc redis_db)
    (args : list pyval) (kw : kwargs) : M world pyval :=
  let k := key self f args in
  data <- match connection self with
          | Some _ => load self k
          | None => ret PyNone
          end ;;
  if truthy data then lift (after_load data args kw)
  else
    data <- call f args kw ;;
    (if bool_decide (data ≠ PyNone) then
       cached <- lift (before_save data args kw) ;;
       match connection self with
       | Some _ =>
           save self k cached ;;
           match ttl_set ttl with
           | Some t => redis_expire accepts_ttl k t
           | None => ret tt
           end
       | None => ret tt
       end
     else ret tt) ;;
    ret data.

(** [CacheManager.cache] *)
Definition cache (self : CacheManager) (f : pyfunc redis_db) :=
  wrapper self (_ttl self) f.

(** [DefaultCacheManager.cache]: [ttl = kwargs.get('ttl', self._ttl)]. *)
Definition default_cache (self : CacheManager) (ttl_kw : option (option Z))
    (f : pyfunc redis_db) :=
  wrapper self (default (_ttl self) ttl_kw) f.
End Decorator.

(** How many times the underlying function ran in a stretch of the log. *)
Definition is_call (ev : event) : bool :=
  match ev with EvCall _ _ _ => true | _ => false end.
Definition is_write (ev : event) : bool :=
  match ev with EvSet _ _ | EvExpire _ _ => true | _ => false end.
Definition invocations (evs : list event) : nat :=
  length (filter (λ ev, is_call ev = true) evs).

(** The events a run from [w] to [w'] added to the log. *)
Definition new_events (w w' : world) : list event := drop (length (log w)) (log w').

(** Whether the expire that follows a save is refused by the server. *)
Definition expire_refused (accepts : Z → bool) (ttl : option Z) : bool :=
  match ttl_set ttl with
  | Some t => negb (accepts t)
  | None => false
  end.

(** The contents after the save of [b] under [k] and the expire that
    follows it, from contents [d]. *)
Definition saved (accepts : Z → bool) (ttl : option Z) (k b : string) (d : redis_db) :
    redis_db :=
  match ttl_set ttl with
  | None => <[k := (b, None)]> d
  | Some t =>
      if accepts t then
        if bool_decide (0 < t)%Z then <[k := (b, Some t)]> (<[k := (b, None)]> d)
        else delete k (<[k := (b, None)]> d)
      else <[k := (b, None)]> d
  end.

(** The events of a miss that saves [b] under [k]. *)
Definition miss_events (ttl : option Z) (k : string) (name : string)
    (args : list pyval) (kw : kwargs) (b : string) : list event :=
  [EvGet k; EvCall name args kw; EvSet k b]
  ++ match ttl_set ttl with Some t => [EvExpire k t] | None => [] end.

(** The state after [n] consecutive calls of a decorated function. *)
Fixpoint after_calls (m : M world pyval) (n : nat) (w : world) : world :=
  match n with
  | O => w
  | S n' => after_calls m n' (m w).2
  end.

End cache_manager.

(** ** redis_cache/django_cache_manager.py *)

Module django_cache_manager.

(** The class of the [cache] object the managers share, as
    [isinstance(cache, redis.StrictRedis)] tells it: a raw Redis client, or
    a Django cache backend that offers [delete_pattern]. *)
Inductive cache_kind : Type := StrictRedis | DjangoCache.

#[global] Instance cache_kind_eq_dec : EqDecision cache_kind.
Proof. solve_decision. Defined.

(** The contents of the cache: each key holds the value it was set to and
    the timeout it was set with.  The passing of time is outside the model:
    an entry stays until it is deleted. *)
Abbreviation cache_db := (gmap string (pyval * option Z)).

(** What an instrumented run observes, in order.  A call is recorded with
    the contents of the cache at the instant the function is entered. *)
Inductive event : Type :=
  | EvCall (name : string) (args : list pyval) (kw : kwargs) (seen : cache_db)
  | EvLogError (name : string)
  | EvSet (key : string) (value : pyval) (timeout : option Z)
  | EvDelete (key : string)
  | EvKeys (pattern : string)
  | EvDeleteKeys (keys : list string)
  | EvDeletePattern (pattern : string).

(** [faults] schedules the availability of the store: each operation on the
    cache consumes the head, and raises [ConnectionError] without touching
    the contents when it is [true]; the empty schedule never fails. *)
Record world : Type := mkWorld {
  db : cache_db;
  faults : list bool;
  log : list event
}.

Definition record_event (ev : event) (w : world) : world :=
  {| db := db w; faults := faults w; log := log w ++ [ev] |}.

(** One round trip to the store. *)
Definition store_op {A} (ev : event) (act : cache_db → outcome A * cache_db) : M world A :=
  λ w, match faults w with
       | true :: fs =>
           (Raise ConnectionError, {| db := db w; faults := fs; log := log w ++ [ev] |})
       | _ =>
           let '(o, d) := act (db w) in
           (o, {| db := d; faults := tail (faults w); log := log w ++ [ev] |})
       end.

(** [cache.get(key)] as a caller reads it once [update] has returned. *)
Definition cache_get (k : string) (w : world) : option pyval := fst <$> db w !! k.

(** What the backend keeps of a value: a Django backend pickles it and
    gives it back as it was; a raw client sends its string form, which is
    what a read gives back. *)
Definition stored_value (c : cache_kind) (v : pyval) : pyval :=
  match c with
  | DjangoCache => v
  | StrictRedis => PyStr (unicode v)
  end.

(** [cache.set(key, value, timeout)].  Without a timeout the value is kept
    for good.  A positive timeout is attached to the value, unless the
    server refuses it because it overflows its clock ([accepts] is [false]):
    the call then raises [ResponseError].  With a timeout that is zero or
    negative a Django backend keeps nothing and deletes the key instead; a
    raw client, whose third parameter is [ex], drops a zero ([if ex:]) and
    sets the value without a timeout, and has a negative one refused by the
    server. *)
Definition cache_set (accepts : Z → bool) (c : cache_kind) (k : string) (v : pyval)
    (t : option Z) : M world unit :=
  store_op (EvSet k v t)
    (λ d, match t with
          | None => (Return tt, <[k := (stored_value c v, None)]> d)
          | Some s =>
              if bool_decide (0 < s)%Z then
                if accepts s then (Return tt, <[k := (stored_value c v, Some s)]> d)
                else (Raise ResponseError, d)
              else
                match c with
                | DjangoCache => (Return tt, delete k d)
                | StrictRedis =>
                    if bool_decide (s = 0)%Z
                    then (Return tt, <[k := (stored_value c v, None)]> d)
                    else (Raise ResponseError, d)
                end
          end).

(** [cache.delete(key)] *)
Definition cache_delete (k : string) : M world unit :=
  store_op (EvDelete k) (λ d, (Return tt, delete k d)).

(** A record of a call to keep warm: the tuple
    [(func, ignore_args, view, namespace, args, kwargs)]. *)
Record CallRecord : Type := mkCall {
  func : pyfunc cache_db;
  ignore_args : bool;
  view : bool;
  rec_namespace : string;
  args : list pyval;
  kw : kwargs
}.

(** [CacheManager], a list of call records with three attributes. *)
Record CacheManager : Type := mkManager {
  namespace : string;
  cache : cache_kind;
  app_name : string;
  items : list CallRecord
}.

(** The registries: [CacheUpdateManager.__dict__], in its iteration order,
    and the class-level list [CacheManager.views] every manager shares. *)
Record registry : Type := mkRegistry {
  managers : list (string * CacheManager);
  views : list CallRecord
}.

(** Calling the function of a record with its arguments. *)
Definition call (r : CallRecord) : M world pyval :=
  λ w, let '(o, d) := f_body (func r) (args r) (kw r) (db w) in
       (o, {| db := d; faults := faults w;
              log := log w ++ [EvCall (f_name (func r)) (args r) (kw r) (db w)] |}).

(** The state a call leaves when the function left the contents [d']. *)
Definition after_call (r : CallRecord) (w : world) (d' : cache_db) : world :=
  {| db := d'; faults := faults w;
     log := log w ++ [EvCall (f_name (func r)) (args r) (kw r) (db w)] |}.

(** [try: ... except Exception: ...]: [None] when an exception derived from
    [Exception] was caught. *)
Definition try_except_Exception {S A} (m : M S A) : M S (option A) :=
  λ s, match m s with
       | (Return a, s') => (Return (Some a), s')
       | (Raise e, s') =>
           if isinstance_Exception e then (Return None, s') else (Raise e, s')
       end.

Definition logger_error (name : string) : M world unit :=
  λ w, (Return tt, record_event (EvLogError name) w).

(** [CacheUpdateManager.namespaces] *)
Definition namespaces (um : registry) : list string := map fst (managers um).

(** [CacheUpdateManager.get]: [self.__dict__.get(name)]. *)
Definition get (um : registry) (name : string) : option CacheManager :=
  dict_get (managers um) name.

(** Looking up a method of the update manager, as [self.name(...)] does.
    The managers sit in the [__dict__] of the instance, which is searched
    before the functions of the class: a namespace that bears the name of a
    method is found in its place, and calling the [CacheManager] found there
    raises [TypeError].  ([namespaces] is a property, which the instance
    cannot shadow.) *)
Definition shadowed (um : registry) (name : string) : bool :=
  bool_decide (name ∈ namespaces um).

Definition method {S A} (um : registry) (name : string) (m : M S A) : M S A :=
  if shadowed um name then raise TypeError else m.

Section Manager.
(** [cache_utils.decorators.cache_create_key], imported by [update]:
    the key of a call from the namespace, the ignore-args flag, the
    function's name and the arguments. *)
Variable cache_create_key : string → bool → string → list pyval → kwargs → string.

(** The store's glob matching: [glob pattern key]. *)
Variable glob : string → string → bool.

(** [settings.DEFAULT_CACHE_TIMEOUT] *)
Variable timeout : option Z.

(** The positive timeouts the server accepts: those that, added to its
    clock, do not overflow it. *)
Variable accepts_timeout : Z → bool.

(** [settings.CACHE_KEYS]: the application group of each namespace. *)
Variable CACHE_KEYS : gmap string string.

(** [cache.keys(pattern)] of a raw client. *)
Definition cache_keys (pattern : string) : M world (list string) :=
  store_op (EvKeys pattern)
    (λ d, (Return (filter (λ k, glob pattern k = true) (map fst (map_to_list d))), d)).

(** [cache.delete( *keys)] of a raw client: DEL needs at least one key,
    and the server's refusal surfaces as [ResponseError]. *)
Definition redis_delete (keys : list string) : M world Z :=
  store_op (EvDeleteKeys keys)
    (λ d, match keys with
          | [] => (Raise ResponseError, d)
          | _ :: _ =>
              (Return (Z.of_nat (length (filter (λ k, is_Some (d !! k)) (remove_dups keys)))),
               foldr delete d keys)
          end).

(** [cache.delete_pattern(pattern)] of a Django backend. *)
Definition delete_pattern (pattern : string) : M world Z :=
  store_op (EvDeletePattern pattern)
    (λ d, (Return (Z.of_nat (size (filter (λ kv, glob pattern kv.1 = true) d))),
           filter (λ kv, glob pattern kv.1 = false) d)).

(** [CacheUpdateManager.flush_app] *)
Definition flush_app (app : string) (c : cache_kind) : M world Z :=
  let pattern := "*." +:+ app +:+ ".*" in
  match c with
  | StrictRedis => keys <- cache_keys pattern ;; redis_delete keys
  | DjangoCache => delete_pattern pattern
  end.

(** [CacheManager.flush]: [delete_pattern] exists on a Django backend only;
    on a raw client the attribute lookup fails before anything is sent. *)
Definition flush (self : CacheManager) : M world Z :=
  let pattern := "*" +:+ namespace self +:+ "*" in
  match cache self with
  | DjangoCache => delete_pattern pattern
  | StrictRedis => raise AttributeError
  end.

(** The key [update] writes a record of [self] under. *)
Definition record_key (self : CacheManager) (r : CallRecord) : string :=
  cache_create_key (namespace self) (ignore_args r) (f_name (func r)) (args r) (kw r).

(** The key [update] deletes for a view record. *)
Definition view_key (r : CallRecord) : string :=
  cache_create_key (rec_namespace r) (ignore_args r) (f_name (func r)) (args r) (kw r).

(** The first loop of [update], over the records of [self]. *)
Fixpoint registry_loop (self : CacheManager) (recs : list CallRecord)
    (num_updated : Z) : M world Z :=
  match recs with
  | [] => ret num_updated
  | r :: rest =>
      result <- try_except_Exception (call r) ;;
      match result with
      | None =>
          logger_error (f_name (func r)) ;;
          registry_loop self rest num_updated
      | Some result =>
          cache_set accepts_timeout (cache self) (record_key self r) result timeout ;;
          registry_loop self rest (num_updated + 1)%Z
      end
  end.

(** The body of the second loop of [update]: the key of the view record is
    deleted, then its function is called and the result dropped. *)
Definition view_step (r : CallRecord) : M world pyval :=
  cache_delete (view_key r) ;;
  call r.

(** The second loop of [update], over [CacheManager.views]. *)
Fixpoint view_walk (self : CacheManager) (vs : list CallRecord) : M world unit :=
  match vs with
  | [] => ret tt
  | r :: rest =>
      view_step r ;;
      view_walk self rest
  end.

(** [CacheManager.update]; the flush is [update_manager.flush_app(...)],
    looked up on the update manager. *)
Definition update (self : CacheManager) (update_manager : registry) : M world Z :=
  num_updated <- registry_loop self (items self) 0%Z ;;
  method update_manager "flush_app" (flush_app (app_name self) (cache self)) ;;
  view_walk self (views update_manager) ;;
  ret num_updated.

(** [CacheUpdateManager.update_namespace]; the manager is fetched with
    [self.get(namespace)]. *)
Definition update_namespace (um : registry) (ns : string) : M world Z :=
  manager <- method um "get" (ret (get um ns)) ;;
  match manager with
  | Some manager => update manager um
  | None => raise AttributeError
  end.

(** The loop of [update_all]; each update is [self.update_namespace(...)]. *)
Fixpoint update_all_loop (um : registry) (nss : list string) (result : list Z)
    : M world (list Z) :=
  match nss with
  | [] => ret result
  | ns :: rest =>
      r <- method um "update_namespace" (update_namespace um ns) ;;
      update_all_loop um rest (result ++ [r])
  end.

(** [CacheUpdateManager.update_all] *)
Definition update_all (um : registry) : M world (list Z) :=
  update_all_loop um (namespaces um) [].

(** [CacheManager.append]: a record flagged as a view also joins the
    shared [views]. *)
Definition append (self : CacheManager) (vs : list CallRecord) (tup : CallRecord)
    : CacheManager * list CallRecord :=
  ({| namespace := namespace self; cache := cache self; app_name := app_name self;
      items := items self ++ [tup] |},
   if view tup then vs ++ [tup] else vs).

(** [CacheUpdateManager.add_to_manager]; the manager is fetched with
    [self.get(namespace)]. *)
Definition add_to_manager (um : registry) (ns : string) (ignore view : bool)
    (f : pyfunc cache_db) (a : list pyval) (k : kwargs) : outcome bool * registry :=
  method um "get"
    (λ um, match get um ns with
           | Some manager =>
               let '(manager', vs) :=
                 append manager (views um) (mkCall f ignore view ns a k) in
               (Return true, {| managers := dict_set (managers um) ns manager'; views := vs |})
           | None => (Return false, um)
           end) um.

(** [CacheUpdateManager.__init__]: one empty manager per key, each looked
    up in [settings.CACHE_KEYS].  Python 2 leaves the iteration order of
    the resulting [__dict__] unspecified; here the keys are listed in the
    order they first occur. *)
Fixpoint init_managers (keys : list string) (c : cache_kind)
    (acc : list (string * CacheManager)) : outcome (list (string * CacheManager)) :=
  match keys with
  | [] => Return acc
  | key :: rest =>
      match CACHE_KEYS !! key with
      | Some app => init_managers rest c (dict_set acc key (mkManager key c app []))
      | None => Raise KeyError
      end
  end.

Definition init (keys : list string) (c : cache_kind) (vs : list CallRecord)
    : outcome registry :=
  match init_managers keys c [] with
  | Return ms => Return {| managers := ms; views := vs |}
  | Raise e => Raise e
  end.

(** [CacheUpdateManager.__setattr__] *)
Definition __setattr__ {V} (self : registry) (name : string) (value : V)
    : outcome unit * registry :=
  (Raise AttributeError, self).

(** [CacheUpdateManager.__delattr__] *)
Definition __delattr__ (self : registry) (name : string) : outcome unit * registry :=
  (Raise AttributeError, self).

(** [CacheUpdateManager.__getattr__] *)
Definition __getattr__ (self : registry) (name : string) : outcome string :=
  if bool_decide (name ∈ namespaces self) then Return name else Raise AttributeError.

(** The calls a client can make on the update manager: [um.name = value],
    [del um.name], [um.__getattr__(name)] and its methods. *)
Inductive op : Type :=
  | Setattr (name : string) (value : CacheManager)
  | Delattr (name : string)
  | Getattr (name : string)
  | AddToManager (ns : string) (ignore view : bool) (f : pyfunc cache_db)
      (a : list pyval) (k : kwargs)
  | UpdateNamespace (ns : string)
  | UpdateAll
  | FlushApp (app : string) (c : cache_kind).

(** Whether an outcome is an exception, forgetting the value returned. *)
Definition status {A} (o : outcome A) : outcome unit :=
  match o with
  | Return _ => Return tt
  | Raise e => Raise e
  end.

(** One call and the state it leaves.  The methods are looked up on the
    instance; assignment and deletion go through the class. *)
Definition run_op (o : op) (st : registry * world) : outcome unit * (registry * world) :=
  let '(um, w) := st in
  match o with
  | Setattr name value =>
      let '(r, um') := __setattr__ um name value in (r, (um', w))
  | Delattr name =>
      let '(r, um') := __delattr__ um name in (r, (um', w))
  | Getattr name =>
      let '(r, w') := method um "__getattr__" (λ w, (__getattr__ um name, w)) w in
      (status r, (um, w'))
  | AddToManager ns ignore view f a k =>
      let '(r, um') :=
        method um "add_to_manager" (λ um, add_to_manager um ns ignore view f a k) um in
      (status r, (um', w))
  | UpdateNamespace ns =>
      let '(r, w') := method um "update_namespace" (update_namespace um ns) w in
      (status r, (um, w'))
  | UpdateAll =>
      let '(r, w') := method um "update_all" (update_all um) w in (status r, (um, w'))
  | FlushApp app c =>
      let '(r, w') := method um "flush_app" (flush_app app c) w in (status r, (um, w'))
  end.

(** A client session: the calls are made one after the other, whether or
    not one of them raised. *)
Definition run_ops (os : list op) (st : registry * world) : registry * world :=
  foldl (λ st o, snd (run_op o st)) st os.

(** *** Vocabulary for the properties of [update] *)

(** The run of the first loop of [update] over the records [recs], from
    the state [w]: the outcome of the call of each record, in order, and the
    state the loop is left in.  The function of a record is called on the
    store as the loop has brought it there; it returns and the set of its
    result returns, or it raises an exception derived from [Exception]. *)
Inductive loop_run (self : CacheManager) :
    list CallRecord → world → list (outcome pyval) → world → Prop :=
  | loop_run_nil w : loop_run self [] w [] w
  | loop_run_set r rs w v d' w1 os w2 :
      f_body (func r) (args r) (kw r) (db w) = (Return v, d') →
      cache_set accepts_timeout (cache self) (record_key self r) v timeout
        (after_call r w d') = (Return tt, w1) →
      loop_run self rs w1 os w2 →
      loop_run self (r :: rs) w (Return v :: os) w2
  | loop_run_skip r rs w e d' os w2 :
      f_body (func r) (args r) (kw r) (db w) = (Raise e, d') →
      isinstance_Exception e = true →
      loop_run self rs (record_event (EvLogError (f_name (func r))) (after_call r w d'))
        os w2 →
      loop_run self (r :: rs) w (Raise e :: os) w2.

Definition is_raise {A} (o : outcome A) : bool :=
  match o with Raise _ => true | Return _ => false end.

(** How many of the calls raised. *)
Definition failures {A} (os : list (outcome A)) : nat :=
  length (filter (λ o, is_raise o = true) os).

(** What a read of the key finds once [cache.set(key, v, t)] has returned
    and nothing else touched the key. *)
Definition read_after_set (c : cache_kind) (v : pyval) (t : option Z) : option pyval :=
  match c, t with
  | DjangoCache, Some s => if bool_decide (0 < s)%Z then Some v else None
  | DjangoCache, None => Some v
  | StrictRedis, _ => Some (PyStr (unicode v))
  end.

(** The function of the record does not write or delete key [k]. *)
Definition leaves_key (r : CallRecord) (k : string) : Prop :=
  ∀ d, (f_body (func r) (args r) (kw r) d).2 !! k = d !! k.

(** The events of a flush. *)
Definition is_flush_event (ev : event) : bool :=
  match ev with
  | EvKeys _ | EvDeleteKeys _ | EvDeletePattern _ => true
  | _ => false
  end.

(** The events of the first loop over the given records, and whether it
    went through all of them: each record is called, then its result is set
    or its failure logged; the loop is left early by a call that raises an
    exception it does not catch, or by a set that raises. *)
Inductive registry_trace (self : CacheManager) :
    list CallRecord → list event → bool → Prop :=
  | registry_trace_nil : registry_trace self [] [] true
  | registry_trace_set r rs seen v evs done :
      registry_trace self rs evs done →
      registry_trace self (r :: rs)
        (EvCall (f_name (func r)) (args r) (kw r) seen
         :: EvSet (record_key self r) v timeout :: evs) done
  | registry_trace_skip r rs seen evs done :
      registry_trace self rs evs done →
      registry_trace self (r :: rs)
        (EvCall (f_name (func r)) (args r) (kw r) seen
         :: EvLogError (f_name (func r)) :: evs) done
  | registry_trace_uncaught r rs seen :
      registry_trace self (r :: rs) [EvCall (f_name (func r)) (args r) (kw r) seen] false
  | registry_trace_set_raised r rs seen v :
      registry_trace self (r :: rs)
        [EvCall (f_name (func r)) (args r) (kw r) seen;
         EvSet (record_key self r) v timeout] false.

(** The events of the second loop over the given view records, and whether
    it went through all of them: the key of each record is deleted, then its
    function is called, on a store without that key; the loop is left early
    by a deletion or a call that raises, and is not entered at all when the
    first loop or the flush raised. *)
Inductive view_trace : list CallRecord → list event → bool → Prop :=
  | view_trace_nil : view_trace [] [] true
  | view_trace_call r vs seen evs done :
      seen !! view_key r = None →
      view_trace vs evs done →
      view_trace (r :: vs)
        (EvDelete (view_key r) :: EvCall (f_name (func r)) (args r) (kw r) seen :: evs)
        done
  | view_trace_delete_raised r vs : view_trace (r :: vs) [EvDelete (view_key r)] false
  | view_trace_call_raised r vs seen :
      seen !! view_key r = None →
      view_trace (r :: vs)
        [EvDelete (view_key r); EvCall (f_name (func r)) (args r) (kw r) seen] false
  | view_trace_not_entered vs : view_trace vs [] false.

(** The updates of the listed namespaces, as [update_all] calls them, all
    return, one after the other, with these results. *)
Inductive runs_updates (um : registry) : list string → world → list Z → world → Prop :=
  | runs_updates_nil w : runs_updates um [] w [] w
  | runs_updates_cons ns nss w r w1 rs w2 :
      method um "update_namespace" (update_namespace um ns) w = (Return r, w1) →
      runs_updates um nss w1 rs w2 →
      runs_updates um (ns :: nss) w (r :: rs) w2.

(** The events a run from [w] to [w'] added to the log. *)
Definition new_events (w w' : world) : list event := drop (length (log w)) (log w').

Definition is_set (ev : event) : bool :=
  match ev with EvSet _ _ _ => true | _ => false end.

Definition is_delete (ev : event) : bool :=
  match ev with EvDelete _ => true | _ => false end.

(** How many values a stretch of the log set. *)
Definition sets (evs : list event) : nat := length (filter (λ ev, is_set ev = true) evs).

(** An event without the snapshot of the store a call carries. *)
Definition erase (ev : event) : event :=
  match ev with
  | EvCall name a k _ => EvCall name a k ∅
  | _ => ev
  end.

(** The events a complete walk over the views shows, snapshots erased. *)
Definition walk_events (vs : list CallRecord) : list event :=
  flat_map (λ r, [EvDelete (view_key r);
                  EvCall (f_name (func r)) (args r) (kw r) ∅]) vs.

(** Nothing was taken away between [um] and [um']: every manager is still
    there with the same attributes and its records as a prefix of what it
    holds now, and so are the shared views. *)
Definition extends (um um' : registry) : Prop :=
  (∀ ns m, get um ns = Some m →
     ∃ m', get um' ns = Some m'
           ∧ items m `prefix_of` items m'
           ∧ namespace m' = namespace m ∧ cache m' = cache m
           ∧ app_name m' = app_name m)
  ∧ views um `prefix_of` views um'.

(** What registration maintains: the namespaces are distinct, each manager
    carries the name it is filed under, each of its records carries that
    name too, the view records of every manager are in the shared views, and
    the shared views hold view records only. *)
Definition registered (um : registry) : Prop :=
  NoDup (namespaces um)
  ∧ (∀ ns m, get um ns = Some m →
       namespace m = ns
       ∧ ∀ r, r ∈ items m → rec_namespace r = ns ∧ (view r = true → r ∈ views um))
  ∧ ∀ r, r ∈ views um → view r = true.
End Manager.

End django_cache_manager.

(** ** Sample objects

    Concrete managers, functions and stores on which the definitions above
    are evaluated in the examples. *)

Module samples.
Import cache_manager.

(** [CacheManager()] with its defaults, bound to a client. *)
Definition manager : CacheManager :=
  mkCacheManager default_key_base None (Some (RedisClient "localhost")).

(** [def f( *a)]: no declared positional parameter. *)
Definition varargs_fn : pyfunc redis_db :=
  PyFunc "f" [] None (λ _ _ d, (Return (PyInt 7), d)).

(** [def f(x)] *)
Definition plain_fn : pyfunc redis_db :=
  PyFunc "f" ["x"] None (λ a _ d, (Return (default PyNone (head a)), d)).

(** [Repo.get(self, x)], a bound method. *)
Definition method_fn : pyfunc redis_db :=
  PyFunc "get" ["self"; "x"] (Some "Repo") (λ _ _ d, (Return (PyInt 7), d)).

(** A function that returns [None] and leaves the store alone. *)
Definition none_fn : pyfunc redis_db :=
  PyFunc "lookup" ["x"] None (λ _ _ d, (Return PyNone, d)).

(** Serialisation hooks for strings and [None], inverse of each other. *)
Definition dumps (v : pyval) (a : list pyval) (k : kwargs) : outcome string :=
  match v with
  | PyStr s => Return ("S" +:+ s)
  | PyNone => Return "N"
  | _ => Raise TypeError
  end.

Definition loads (data : pyval) (a : list pyval) (k : kwargs) : outcome pyval :=
  match data with
  | PyStr (String "S" s) => Return (PyStr s)
  | PyStr "N" => Return PyNone
  | _ => Raise UnpicklingError
  end.

(** A server that accepts a time-to-live of less than 2^53 seconds either
    way. *)
Definition accepts (t : Z) : bool := bool_decide (- 2 ^ 53 < t < 2 ^ 53)%Z.

(** An empty Redis and nothing logged yet. *)
Definition empty_world : world := mkWorld ∅ [].

Definition repo_a : pyval := PyObj "Repo" "<Repo a>".
Definition repo_b : pyval := PyObj "Repo" "<Repo b>".

(** [CacheManager()] with no connection of its own. *)
Definition offline_manager : CacheManager :=
  mkCacheManager default_key_base None None.

(** A function that raises and leaves the store alone. *)
Definition raising_fn : pyfunc redis_db :=
  PyFunc "f" ["x"] None (λ _ _ d, (Raise ValueError, d)).

(** A [before_save] that encodes everything as the empty string. *)
Definition empty_dumps (v : pyval) (a : list pyval) (k : kwargs) : outcome string :=
  Return "".

(** A Redis that holds the encoding of ["a"] under the key of [f("a")]. *)
Definition warm_world : world := mkWorld {[ "cache:f:a" := ("Sa", None) ]} [].
End samples.

Module django_samples.
Import django_cache_manager.

(** A glob matcher with [*] and [?], standing for the store's. *)
Fixpoint star_glob (pattern s : string) : bool :=
  match pattern with
  | EmptyString => match s with EmptyString => true | String _ _ => false end
  | String c pattern' =>
      if decide (c = "*"%char) then
        (fix any (s : string) : bool :=
           star_glob pattern' s
           || match s with EmptyString => false | String _ s' => any s' end) s
      else
        match s with
        | EmptyString => false
        | String a s' =>
            (bool_decide (c = a) || bool_decide (c = "?"%char)) && star_glob pattern' s'
        end
  end.

(** A key builder standing for [cache_create_key]: the namespace, the
    function's name and, unless they are ignored, the arguments. *)
Definition create_key (ns : string) (ignore : bool) (name : string)
    (a : list pyval) (k : kwargs) : string :=
  ns +:+ ":" +:+ name +:+ (if ignore then "" else tail_parts (map unicode a)).

Definition CACHE_KEYS : gmap string string :=
  {[ "posts" := "blog"; "site.shop.items" := "shop" ]}.

(** A server that accepts a timeout of less than 2^53 seconds. *)
Definition accepts (t : Z) : bool := bool_decide (t < 2 ^ 53)%Z.

(** Functions that leave the store alone. *)
Definition constant_fn (name : string) (v : pyval) : pyfunc cache_db :=
  PyFunc name [] None (λ _ _ d, (Return v, d)).

Definition failing_fn (name : string) (e : pyexc) : pyfunc cache_db :=
  PyFunc name [] None (λ _ _ d, (Raise e, d)).

(** A cache with one entry and a store that never fails. *)
Definition one_entry : world :=
  mkWorld {[ "sessions:42" := (PyStr "alice", None) ]} [] [].

(** An empty cache and a store that never fails. *)
Definition empty_cache : world := mkWorld ∅ [] [].

(** An empty cache whose store fails at the second round trip. *)
Definition second_trip_fails : world := mkWorld ∅ [false; true] [].

(** Records of the namespace ["posts"] of the application group ["blog"]. *)
Definition r_count : CallRecord :=
  mkCall (constant_fn "count" (PyInt 3)) false false "posts" [] [].
Definition r_latest : CallRecord :=
  mkCall (constant_fn "latest" (PyStr "hello")) false false "posts" [PyInt 5] [].
Definition r_broken : CallRecord :=
  mkCall (failing_fn "broken" ValueError) false false "posts" [] [].
Definition r_page : CallRecord :=
  mkCall (constant_fn "render" (PyStr "<html>")) false true "posts" [] [].
Definition r_broken_page : CallRecord :=
  mkCall (failing_fn "broken_page" ValueError) false true "posts" [] [].

(** A record of the namespace ["site.shop.items"]. *)
Definition r_stock : CallRecord :=
  mkCall (constant_fn "stock" (PyInt 9)) false false "site.shop.items" [] [].

Definition posts (recs : list CallRecord) : CacheManager :=
  mkManager "posts" DjangoCache "blog" recs.
Definition shop : CacheManager :=
  mkManager "site.shop.items" DjangoCache "shop" [r_stock].

(** A record that ends the interpreter when it is called. *)
Definition r_exit : CallRecord :=
  mkCall (failing_fn "exit" SystemExit) false false "posts" [] [].

(** A namespace whose keys match the pattern of its application group. *)
Definition r_hits : CallRecord :=
  mkCall (constant_fn "hits" (PyInt 12)) false false "site.blog.posts" [] [].
Definition blog_posts : CacheManager :=
  mkManager "site.blog.posts" DjangoCache "blog" [r_hits].

(** A cache with one key of the group ["blog"] and one foreign key. *)
Definition blog_world : world :=
  mkWorld {[ "site.blog.posts:count" := (PyInt 3, None);
             "sessions:42" := (PyStr "alice", None) ]} [] [].

(** An empty cache whose store fails at the first round trip. *)
Definition first_trip_fails : world := mkWorld ∅ [true] [].

(** An update manager with the two namespaces and no view. *)
Definition two_namespaces : registry :=
  mkRegistry [("posts", posts [r_count]); ("site.shop.items", shop)] [].

(** A cache that holds the page an earlier run rendered. *)
Definition stale_page : world :=
  mkWorld {[ "posts:render" := (PyStr "<old>", None) ]} [] [].

(** The namespace ["posts"] on a raw client. *)
Definition raw_posts (recs : list CallRecord) : CacheManager :=
  mkManager "posts" StrictRedis "blog" recs.

(** A raw client that holds a key of the group ["blog"]. *)
Definition raw_world : world :=
  mkWorld {[ "site.blog.posts:count" := (PyStr "3", None) ]} [] [].

(** Update managers one of whose namespaces bears the name of a method. *)
Definition named_get : registry :=
  mkRegistry [("posts", posts [r_count]); ("get", mkManager "get" DjangoCache "blog" [])] [].
Definition named_flush_app : registry :=
  mkRegistry [("posts", posts [r_count]);
              ("flush_app", mkManager "flush_app" DjangoCache "blog" [])] [].
End django_samples.

(** * Properties *)

(** ** Strings and joins *)

Lemma app_cons (a : ascii) (s t : string) : String a s +:+ t = String a (s +:+ t).
Proof. reflexivity. Qed.

Lemma app_empty_r (s : string) : s +:+ "" = s.
Proof. induction s as [|a s IH]; [reflexivity|]. rewrite app_cons. by f_equal. Qed.

Lemma join_cons_cons (sep a b : string) (l : list string) :
  join sep (a :: b :: l) = a +:+ sep +:+ join sep (b :: l).
Proof. reflexivity. Qed.

Lemma join_head (b : string) (l : list string) :
  join ":" (b :: l) = b +:+ tail_parts l.
Proof.
  revert b. induction l as [|c l IH]; intros b.
  - simpl. by rewrite app_empty_r.
  - rewrite join_cons_cons, IH. reflexivity.
Qed.

Lemma tail_parts_at_separator (l : list string) : at_separator (tail_parts l).
Proof. destruct l as [|x l]; [by left|right]. simpl. eauto. Qed.

Lemma colon_free_cons (a : ascii) (s : string) :
  colon_free (String a s) → a ≠ colon ∧ colon_free s.
Proof. unfold colon_free. simpl. case_decide; [done|]. auto. Qed.

(** Two separator-free strings followed by separators: the strings end at
    the same place. *)
Lemma split_at_separator (x y r1 r2 : string) :
  colon_free x → colon_free y → at_separator r1 → at_separator r2 →
  x +:+ r1 = y +:+ r2 → x = y ∧ r1 = r2.
Proof.
  revert y. induction x as [|a x IH]; intros [|c y] Hx Hy H1 H2 Heq.
  - done.
  - exfalso. apply colon_free_cons in Hy as [Hc _].
    change (r1 = String c (y +:+ r2)) in Heq.
    destruct H1 as [->|[r' ->]]; [done|]. by simplify_eq.
  - exfalso. apply colon_free_cons in Hx as [Ha _].
    change (String a (x +:+ r1) = r2) in Heq.
    destruct H2 as [->|[r' ->]]; [done|]. by simplify_eq.
  - apply colon_free_cons in Hx as [_ Hx]. apply colon_free_cons in Hy as [_ Hy].
    rewrite !app_cons in Heq. simplify_eq.
    destruct (IH y) as [-> ->]; auto.
Qed.

Lemma tail_parts_inj (l1 l2 : list string) :
  Forall colon_free l1 → Forall colon_free l2 →
  tail_parts l1 = tail_parts l2 → l1 = l2.
Proof.
  revert l2. induction l1 as [|x l1 IH]; intros [|y l2] H1 H2 Heq; try done.
  apply Forall_cons in H1 as [Hx H1]. apply Forall_cons in H2 as [Hy H2].
  simpl in Heq. rewrite !app_cons in Heq. simplify_eq.
  apply split_at_separator in Heq as [-> Heq];
    auto using tail_parts_at_separator.
  f_equal. auto.
Qed.

(** ** Key construction *)

Section KeyProperties.
Context {S : Type}.
Import cache_manager.

(** With a declared parameter the guard of [key] only separates the empty
    tuple, which adds nothing either way. *)
Lemma key_unfold (self : CacheManager) (f : pyfunc S) (args : list pyval) :
  f_args f ≠ [] →
  key self f args =
    _key_base self +:+ ":" +:+ join "." (nameparts f)
      +:+ tail_parts (map unicode (drop (skip_count f) args)).
Proof.
  intros Hf. unfold key.
  destruct args as [|a args].
  - simpl. rewrite drop_nil. simpl. by rewrite app_empty_r.
  - rewrite bool_decide_true by done.
    rewrite bool_decide_true by (destruct (f_args f); [done|simpl; lia]).
    simpl andb. cbv iota. simpl app.
    rewrite join_cons_cons, join_head. reflexivity.
Qed.

(** A function that declares no positional parameter gets the same key for
    every argument tuple. *)
Lemma key_no_declared_parameter (self : CacheManager) (f : pyfunc S) (args : list pyval) :
  f_args f = [] →
  key self f args = _key_base self +:+ ":" +:+ join "." (nameparts f).
Proof.
  intros Hf. unfold key. rewrite Hf. simpl length.
  rewrite (bool_decide_false (0 < 0)%nat) by lia.
  rewrite andb_false_r. reflexivity.
Qed.
End KeyProperties.

Section KeyClaims.
Context {S : Type}.
Import cache_manager.

(** C2 (amended).  Key construction is a function, so identical inputs give
    an identical key.  For a function with at least one declared positional
    parameter, two argument sequences whose elements from [skip_count] on
    have separator-free string forms get the same key exactly when those
    string forms agree element by element. *)
Theorem key_injective (self : CacheManager) (f : pyfunc S) (args1 args2 : list pyval) :
  f_args f ≠ [] →
  Forall colon_free (map unicode (drop (skip_count f) args1)) →
  Forall colon_free (map unicode (drop (skip_count f) args2)) →
  key self f args1 = key self f args2 ↔
    map unicode (drop (skip_count f) args1) = map unicode (drop (skip_count f) args2).
Proof.
  intros Hf H1 H2. rewrite !key_unfold by done. split.
  - intros Heq. do 3 apply (inj (String.app _)) in Heq.
    by apply tail_parts_inj.
  - by intros ->.
Qed.

(** Where the function declares at least one positional parameter, the key
    is the one the specification words: the prefix, the dotted name parts
    and the string forms of [call_args[skip_count:]], joined with [":"]. *)
Lemma key_is_key_spec (self : CacheManager) (f : pyfunc S) (call_args : list pyval) :
  f_args f ≠ [] →
  key self f call_args = key_spec self f call_args.
Proof.
  intros Hf. rewrite key_unfold by done. unfold key_spec. simpl app.
  by rewrite join_cons_cons, join_head.
Qed.
End KeyClaims.

Module key_examples.
Import cache_manager samples.

Example key_plain : key manager plain_fn [PyInt 1; PyStr "a"] = "cache:f:1:a".
Proof. reflexivity. Qed.

Example key_method : key manager method_fn [repo_a; PyInt 1; PyInt 2] = "cache:Repo.get:1:2".
Proof. reflexivity. Qed.

Example key_order_sensitive :
  key manager method_fn [repo_a; PyInt 2; PyInt 1] = "cache:Repo.get:2:1".
Proof. reflexivity. Qed.

Example key_no_arguments : key manager plain_fn [] = "cache:f".
Proof. reflexivity. Qed.

(** An argument whose string form holds the separator shifts the boundaries
    of the key. *)
Example key_separator_collision :
  key manager plain_fn [PyStr "a:b"] = key manager plain_fn [PyStr "a"; PyStr "b"].
Proof. reflexivity. Qed.

(** C2, as stated, fails: two distinct argument sequences of the same length
    whose string forms hold no separator get one key, when they differ in
    the skipped receiver, and when two different values have the same
    string form. *)
Lemma key_collides_without_separator :
  ([repo_a; PyInt 1] ≠ [repo_b; PyInt 1]
   ∧ length [repo_a; PyInt 1] = length [repo_b; PyInt 1]
   ∧ Forall colon_free (map unicode ([repo_a; PyInt 1] ++ [repo_b; PyInt 1]))
   ∧ key manager method_fn [repo_a; PyInt 1] = key manager method_fn [repo_b; PyInt 1])
  ∧ ([PyInt 1] ≠ [PyStr "1"]
     ∧ Forall colon_free (map unicode ([PyInt 1] ++ [PyStr "1"]))
     ∧ key manager plain_fn [PyInt 1] = key manager plain_fn [PyStr "1"]).
Proof.
  split.
  - split; [done|]. split; [done|]. split; [|reflexivity].
    repeat constructor.
  - split; [done|]. split; [|reflexivity]. repeat constructor.
Qed.

Lemma key_injective_witness :
  key manager method_fn [repo_a; PyInt 1; PyInt 2] = key manager method_fn [repo_b; PyInt 1; PyInt 2]
  ↔ map unicode (drop (skip_count method_fn) [repo_a; PyInt 1; PyInt 2])
    = map unicode (drop (skip_count method_fn) [repo_b; PyInt 1; PyInt 2]).
Proof.
  apply (key_injective manager method_fn); [done | repeat constructor | repeat constructor].
Defined.

(** C3.  The code departs from the claim at [def f( *a)] called with [(1,)]:
    the function declares no positional parameter, and the key is the prefix
    and the name alone, ["cache:f"], where the claim and the docstring of
    [key] have the string form of the argument follow, ["cache:f:1"].  The
    guard [len(f_args) > 0], which protects [f_args[0]], also skips the loop
    over the arguments; with one declared parameter, [def f(x, *rest)], every
    argument enters the key. *)
Theorem key_drops_arguments_without_parameters :
  [PyInt 1] ≠ []
  ∧ key manager varargs_fn [PyInt 1] = "cache:f"
  ∧ key_spec manager varargs_fn [PyInt 1] = "cache:f:1"
  ∧ key manager varargs_fn [PyInt 1] ≠ key_spec manager varargs_fn [PyInt 1].
Proof. done. Qed.

Example key_of_method_is_key_spec :
  key manager method_fn [repo_a; PyInt 1; PyInt 2]
  = key_spec manager method_fn [repo_a; PyInt 1; PyInt 2].
Proof. by apply key_is_key_spec. Qed.
End key_examples.

(** ** The caching decorator *)

Section DecoratorProperties.
Import cache_manager.
Variable get_current_connection : option connection_handle.
Variable before_save : pyval → list pyval → kwargs → outcome string.
Variable after_load : pyval → list pyval → kwargs → outcome pyval.
Variable accepts_ttl : Z → bool.

Local Abbreviation wrapper :=
  (wrapper get_current_connection before_save after_load accepts_ttl).
Local Abbreviation connection := (connection get_current_connection).

Ltac run_wrapper :=
  unfold cache_manager.wrapper, bind, load, save, redis_get, redis_set, redis_expire,
    call, lift, ret, record_event; simpl; cbn [db log].

Lemma new_events_app (w w' : world) (evs : list event) :
  log w' = log w ++ evs → new_events w w' = evs.
Proof. intros H. unfold new_events. rewrite H. by rewrite drop_app_length. Qed.

Lemma truthy_stored_bytes (b : string) : b ≠ "" → truthy (PyStr b) = true.
Proof.
  intros Hb. simpl. destruct (String.eqb_spec b ""); [done|reflexivity].
Qed.

(** A call that misses runs the function, whatever comes after. *)
Lemma wrapper_miss_invokes (self : CacheManager) (ttl : option Z) (f : pyfunc redis_db)
    (args : list pyval) (kw : kwargs) (w : world) :
  (connection self = None ∨ truthy (stored (db w) (key self f args)) = false) →
  invocations (new_events w (wrapper self ttl f args kw w).2) = 1%nat.
Proof.
  intros Hmiss. run_wrapper.
  repeat (case_match; simplify_eq/=); try (destruct Hmiss; congruence);
    unfold new_events; simpl; by rewrite <-?app_assoc, drop_app_length.
Qed.

(** A call that finds non-empty bytes under its key decodes them and stops. *)
Lemma wrapper_hit (self : CacheManager) (ttl : option Z) (f : pyfunc redis_db)
    (args : list pyval) (kw : kwargs) (w : world) (c : connection_handle) :
  connection self = Some c →
  truthy (stored (db w) (key self f args)) = true →
  wrapper self ttl f args kw w =
    (after_load (stored (db w) (key self f args)) args kw,
     record_event (EvGet (key self f args)) w).
Proof. intros Hc Hhit. run_wrapper. rewrite Hc. simpl. by rewrite Hhit. Qed.

(** C6.  When the lookup misses and the wrapped function returns [None],
    the decorated call returns [None], leaves the store exactly as the
    function left it, logs no save and no expire, and a later identical call
    on a store that still answers the key as before runs the function
    again. *)
Theorem none_result_is_not_cached (self : CacheManager) (ttl : option Z)
    (f : pyfunc redis_db) (args : list pyval) (kw : kwargs) (w : world) (d' : redis_db) :
  (connection self = None ∨ truthy (stored (db w) (key self f args)) = false) →
  f_body f args kw (db w) = (Return PyNone, d') →
  ∃ w', wrapper self ttl f args kw w = (Return PyNone, w')
        ∧ db w' = d'
        ∧ Forall (λ ev, is_write ev = false) (new_events w w')
        ∧ ∀ w2, stored (db w2) (key self f args) = stored (db w) (key self f args) →
                invocations (new_events w2 (wrapper self ttl f args kw w2).2) = 1%nat.
Proof.
  intros Hmiss Hf.
  assert (wrapper self ttl f args kw w =
            (Return PyNone,
             {| db := d';
                log := log w ++ match connection self with
                                | Some _ => [EvGet (key self f args)]
                                | None => []
                                end ++ [EvCall (f_name f) args kw] |})) as Hrun.
  { run_wrapper. destruct (connection self); simpl.
    - destruct Hmiss as [ | -> ]; [done|]. simpl. rewrite Hf. simpl.
      by rewrite <-app_assoc.
    - rewrite Hf. simpl. done. }
  eexists. split; [exact Hrun|]. split; [done|]. split.
  - unfold new_events. simpl. rewrite drop_app_length.
    destruct (connection self); by repeat constructor.
  - intros w2 Hsame. apply wrapper_miss_invokes.
    destruct Hmiss as [|Hmiss]; [by left|right]. by rewrite Hsame.
Qed.

(** C7 (amended).  With a connection available and a time-to-live that is
    unset or positive, if a decorated call returns a value other than [None]
    whose encoded form is non-empty and decodes back to it, then the same
    call made again on the store the first one left returns the same value,
    only reads the key, and does not run the function. *)
Theorem second_call_is_a_hit (self : CacheManager) (ttl : option Z) (f : pyfunc redis_db)
    (args : list pyval) (kw : kwargs) (w w1 : world) (v : pyval)
    (c : connection_handle) (b : string) :
  connection self = Some c →
  (∀ t, ttl_set ttl = Some t → (0 < t)%Z) →
  wrapper self ttl f args kw w = (Return v, w1) →
  v ≠ PyNone →
  before_save v args kw = Return b → b ≠ "" →
  after_load (PyStr b) args kw = Return v →
  ∃ w2, wrapper self ttl f args kw w1 = (Return v, w2)
        ∧ db w2 = db w1
        ∧ new_events w1 w2 = [EvGet (key self f args)]
        ∧ invocations (new_events w1 w2) = 0%nat.
Proof.
  intros Hc Httl Hfirst Hv Hbs Hb Hal.
  assert (truthy (stored (db w1) (key self f args)) = true
          ∧ after_load (stored (db w1) (key self f args)) args kw = Return v)
    as [Hhit Hdec].
  { revert Hfirst. run_wrapper. rewrite Hc. simpl. cbn [db log].
    destruct (truthy (stored (db w) (key self f args))) eqn:Hw; simpl.
    - intros [= Hal' <-]. simpl. by rewrite Hw.
    - destruct (f_body f args kw (db w)) as [[r|e] d'] eqn:Hf; simpl; [|done].
      case_bool_decide; simpl; [|intros [= <- <-]; naive_solver].
      destruct (before_save r args kw) as [b'|e] eqn:Hbs'; simpl; [|done].
      destruct (ttl_set ttl) as [t|] eqn:Ht; simpl;
        [destruct (accepts_ttl t); simpl; [|done]|]; intros [= <- <-]; simpl.
      + rewrite lookup_insert_eq. rewrite bool_decide_true by auto.
        unfold stored. rewrite lookup_insert_eq.
        rewrite Hbs in Hbs'. simplify_eq. by rewrite truthy_stored_bytes.
      + unfold stored. rewrite lookup_insert_eq.
        rewrite Hbs in Hbs'. simplify_eq. by rewrite truthy_stored_bytes. }
  eexists. rewrite (wrapper_hit _ _ _ _ _ _ c), Hdec by done.
  split; [done|]. split; [done|].
  unfold new_events. simpl. rewrite drop_app_length. done.
Qed.
End DecoratorProperties.

Module decorator_examples.
Import cache_manager samples.

(** The decorated sample functions, with the sample hooks and no ambient
    connection. *)
Local Abbreviation cached ttl f := (wrapper None dumps loads accepts manager ttl f).

Example miss_then_hit :
  let '(r1, w1) := cached (Some 60%Z) plain_fn [PyStr "a"] [] empty_world in
  let '(r2, w2) := cached (Some 60%Z) plain_fn [PyStr "a"] [] w1 in
  r1 = Return (PyStr "a") ∧ r2 = Return (PyStr "a")
  ∧ db w1 !! "cache:f:a" = Some ("Sa", Some 60%Z)
  ∧ log w2 = [EvGet "cache:f:a"; EvCall "f" [PyStr "a"] []; EvSet "cache:f:a" "Sa";
              EvExpire "cache:f:a" 60; EvGet "cache:f:a"].
Proof. vm_compute. done. Qed.

(** C7, as stated, fails: a function that returns [None] is called twice with
    the same arguments on a store nothing else touches; the results agree,
    but the second call runs the function once more. *)
Lemma none_result_is_recomputed :
  let '(r1, w1) := cached None none_fn [PyInt 1] [] empty_world in
  let '(r2, w2) := cached None none_fn [PyInt 1] [] w1 in
  r1 = Return PyNone ∧ r2 = Return PyNone
  ∧ db w1 = db empty_world ∧ db w2 = db w1
  ∧ invocations (new_events w1 w2) = 1%nat
  ∧ invocations (new_events w1 w2) ≠ 0%nat.
Proof. vm_compute. done. Qed.

Lemma none_result_is_not_cached_witness :
  ∃ w', cached None none_fn [PyInt 1] [] empty_world = (Return PyNone, w')
        ∧ db w' = ∅
        ∧ Forall (λ ev, is_write ev = false) (new_events empty_world w')
        ∧ invocations (new_events w' (cached None none_fn [PyInt 1] [] w').2) = 1%nat.
Proof.
  destruct (none_result_is_not_cached None dumps loads accepts manager None none_fn
              [PyInt 1] [] empty_world ∅) as (w' & Hrun & Hdb & Hwrites & Hagain).
  - by right.
  - reflexivity.
  - exists w'. split; [exact Hrun|]. split; [exact Hdb|]. split; [exact Hwrites|].
    apply Hagain. by rewrite Hdb.
Defined.

Lemma second_call_is_a_hit_witness :
  let w1 := (cached (Some 60%Z) plain_fn [PyStr "a"] [] empty_world).2 in
  ∃ w2, cached (Some 60%Z) plain_fn [PyStr "a"] [] w1 = (Return (PyStr "a"), w2)
        ∧ db w2 = db w1
        ∧ new_events w1 w2 = [EvGet (key manager plain_fn [PyStr "a"])]
        ∧ invocations (new_events w1 w2) = 0%nat.
Proof.
  apply (second_call_is_a_hit None dumps loads accepts manager (Some 60%Z) plain_fn
           [PyStr "a"] [] empty_world _ (PyStr "a") (RedisClient "localhost") "Sa");
    try reflexivity; try done.
  intros t [= <-]. reflexivity.
Defined.
End decorator_examples.

(** ** The update manager *)

Lemma filter_none {A} (P : A → Prop) `{∀ x, Decision (P x)} (l : list A) :
  (∀ x, x ∈ l → ¬ P x) → filter P l = [].
Proof.
  induction l as [|x l IH]; intros Hno; [done|].
  rewrite filter_cons_False by (apply Hno; left).
  apply IH. intros y Hy. apply Hno. by right.
Qed.

Lemma lookup_foldr_delete {V} (d : gmap string V) (keys : list string) (k : string) :
  foldr delete d keys !! k = if decide (k ∈ keys) then None else d !! k.
Proof.
  induction keys as [|a keys IH].
  - simpl. destruct (decide (k ∈ [])) as [Hin|]; [by apply elem_of_nil in Hin|done].
  - cbn [foldr]. destruct (decide (a = k)) as [->|Hne].
    + rewrite lookup_delete_eq.
      destruct (decide (k ∈ k :: keys)) as [|Hnin]; [done|].
      exfalso. apply Hnin. by left.
    + rewrite lookup_delete_ne, IH by done.
      destruct (decide (k ∈ keys)) as [Hin|Hnin];
        destruct (decide (k ∈ a :: keys)) as [Hin'|Hnin']; try done.
      * exfalso. apply Hnin'. by right.
      * exfalso. apply elem_of_cons in Hin' as [->|Hin']; done.
Qed.

Lemma filter_glob_lookup (glob : string → string → bool) (pattern : string) (d : django_cache_manager.cache_db) (k : string) :
  filter (λ kv, glob pattern kv.1 = false) d !! k
  = if glob pattern k then None else d !! k.
Proof.
  destruct (glob pattern k) eqn:Hg.
  - apply map_lookup_filter_None_2. right. intros x _. simpl. congruence.
  - destruct (d !! k) as [x|] eqn:Hx.
    + by apply map_lookup_filter_Some_2.
    + apply map_lookup_filter_None_2. by left.
Qed.

Section ManagerProperties.
Import django_cache_manager.
Variable cache_create_key : string → bool → string → list pyval → kwargs → string.
Variable glob : string → string → bool.
Variable timeout : option Z.
Variable accepts_timeout : Z → bool.

Local Abbreviation cache_keys := (cache_keys glob).
Local Abbreviation delete_pattern := (delete_pattern glob).
Local Abbreviation flush_app := (flush_app glob).
Local Abbreviation record_key := (record_key cache_create_key).
Local Abbreviation view_key := (view_key cache_create_key).
Local Abbreviation view_step := (view_step cache_create_key).
Local Abbreviation view_walk := (view_walk cache_create_key).
Local Abbreviation cache_set := (cache_set accepts_timeout).
Local Abbreviation registry_loop := (registry_loop cache_create_key timeout accepts_timeout).
Local Abbreviation update := (update cache_create_key glob timeout accepts_timeout).
Local Abbreviation update_namespace := (update_namespace cache_create_key glob timeout accepts_timeout).
Local Abbreviation update_all_loop := (update_all_loop cache_create_key glob timeout accepts_timeout).
Local Abbreviation update_all := (update_all cache_create_key glob timeout accepts_timeout).

(** *** Single operations *)

Lemma store_op_log {A} (ev : event) (act : cache_db → outcome A * cache_db) (w : world) :
  log (store_op ev act w).2 = log w ++ [ev].
Proof.
  unfold store_op. destruct (faults w) as [|[] fs]; simpl;
    try done; by destruct (act (db w)).
Qed.

(** With no fault scheduled for it, an operation acts on the contents. *)
Lemma store_op_reached {A} (ev : event) (act : cache_db → outcome A * cache_db) (w : world) :
  head (faults w) ≠ Some true →
  store_op ev act w =
    ((act (db w)).1,
     {| db := (act (db w)).2; faults := tail (faults w); log := log w ++ [ev] |}).
Proof.
  intros Hok. unfold store_op. destruct (faults w) as [|[] fs]; simpl in *;
    try done; by destruct (act (db w)).
Qed.

Lemma store_op_fault {A} (ev : event) (act : cache_db → outcome A * cache_db) (w : world) :
  head (faults w) = Some true →
  store_op ev act w =
    (Raise ConnectionError,
     {| db := db w; faults := tail (faults w); log := log w ++ [ev] |}).
Proof.
  intros Hko. unfold store_op. by destruct (faults w) as [|[] fs]; simplify_eq/=.
Qed.

Lemma no_key_matches (pattern : string) (d : cache_db) :
  (∀ k, is_Some (d !! k) → glob pattern k = false) →
  filter (λ k, glob pattern k = true) (map fst (map_to_list d)) = [].
Proof.
  intros Hno. apply filter_none. intros k Hk.
  apply list_elem_of_fmap in Hk as [[k' x] [-> Hk]].
  apply elem_of_map_to_list in Hk. rewrite Hno; [done|]. by eexists.
Qed.

(** C10.  On a raw Redis client, when no key of the store matches
    ["*.<app_name>.*"], [flush_app] does not return a count: it raises.  When
    the store is reachable for both round trips it has listed the keys,
    called delete with an empty key list, and the exception is the
    [ResponseError] of that call; the contents are left as they were. *)
Theorem flush_app_raises_without_match (app : string) (w : world) :
  (∀ k, is_Some (db w !! k) → glob ("*." +:+ app +:+ ".*") k = false) →
  ∃ e w', flush_app app StrictRedis w = (Raise e, w')
          ∧ db w' = db w
          ∧ (Forall (λ b, b = false) (take 2 (faults w)) →
             e = ResponseError
             ∧ log w' = log w ++ [EvKeys ("*." +:+ app +:+ ".*"); EvDeleteKeys []]).
Proof.
  intros Hno. unfold django_cache_manager.flush_app, bind,
    django_cache_manager.cache_keys, redis_delete, store_op.
  destruct (faults w) as [|[] fs] eqn:Hfaults; simpl;
    rewrite ?(no_key_matches _ _ Hno); simpl.
  - eexists _, _. repeat split; simpl; by rewrite <-?app_assoc.
  - eexists _, _. split; [done|]. split; [done|].
    intros Hok. by apply Forall_cons in Hok as [? _].
  - destruct fs as [|[] fs]; simpl; eexists _, _;
      (split; [done|]); (split; [done|]); intros Hok; simpl.
    + by rewrite <-app_assoc.
    + apply Forall_cons in Hok as [_ Hok]. by apply Forall_cons in Hok as [? _].
    + by rewrite <-app_assoc.
Qed.

(** *** Sequencing *)

Lemma bind_return {S A B} (m : M S A) (k : A → M S B) (s s' : S) (a : A) :
  m s = (Return a, s') → bind m k s = k a s'.
Proof. intros H. unfold bind. by rewrite H. Qed.

Lemma bind_raise {S A B} (m : M S A) (k : A → M S B) (s s' : S) (e : pyexc) :
  m s = (Raise e, s') → bind m k s = (Raise e, s').
Proof. intros H. unfold bind. by rewrite H. Qed.

Lemma bind_assoc {S A B C} (m : M S A) (k : A → M S B) (k' : B → M S C) (s : S) :
  bind (bind m k) k' s = bind m (λ a, bind (k a) k') s.
Proof. unfold bind. by destruct (m s) as [[a|e] s']. Qed.

Lemma bind_ext {S A B} (m : M S A) (k k' : A → M S B) (s : S) :
  (∀ a s', k a s' = k' a s') → bind m k s = bind m k' s.
Proof. intros Hk. unfold bind. by destruct (m s) as [[a|e] s']. Qed.

(** *** The walk over the views *)

Lemma view_walk_app (self : CacheManager) (pre rest : list CallRecord) (w w1 : world) :
  view_walk self pre w = (Return tt, w1) →
  view_walk self (pre ++ rest) w = view_walk self rest w1.
Proof.
  revert w. induction pre as [|r pre IH]; intros w Hpre; simpl in *.
  - unfold ret in Hpre. by simplify_eq.
  - unfold bind in *. destruct (view_step r w) as [[v|e] w0]; [|done]. by apply IH.
Qed.

(** The two ways the body of the walk raises: the deletion fails, or it
    succeeds and the function raises on the store without the key. *)
Lemma view_step_raises (r : CallRecord) (w w' : world) (e : pyexc) :
  view_step r w = (Raise e, w') →
  (e = ConnectionError ∧ head (faults w) = Some true
   ∧ log w' = log w ++ [EvDelete (view_key r)])
  ∨ (∃ d', f_body (func r) (args r) (kw r) (delete (view_key r) (db w)) = (Raise e, d')
           ∧ log w' = log w ++ [EvDelete (view_key r);
                                EvCall (f_name (func r)) (args r) (kw r)
                                  (delete (view_key r) (db w))]).
Proof.
  unfold django_cache_manager.view_step, bind, cache_delete, store_op, call.
  destruct (faults w) as [|[] fs]; simpl.
  - destruct (f_body _ _ _ _) as [o d'] eqn:Hf. intros [= -> <-]. right.
    eexists. split; [done|]. simpl. by rewrite <-app_assoc.
  - intros [= <- <-]. by left.
  - destruct (f_body _ _ _ _) as [o d'] eqn:Hf. intros [= -> <-]. right.
    eexists. split; [done|]. simpl. by rewrite <-app_assoc.
Qed.

(** C9.  When the first loop and the flush of [update] have completed and
    the walk over the views reaches a record whose deletion fails or whose
    function raises, [update] raises that exception to its caller and
    returns no count; the state it leaves is the one of the failure, so no
    later view record is processed. *)
Theorem view_failure_aborts_update (self : CacheManager) (um : registry)
    (pre post : list CallRecord) (r : CallRecord) (w w0 w1 w2 w3 : world)
    (n c : Z) (e : pyexc) :
  views um = pre ++ r :: post →
  registry_loop self (items self) 0 w = (Return n, w0) →
  method um "flush_app" (flush_app (app_name self) (cache self)) w0 = (Return c, w1) →
  view_walk self pre w1 = (Return tt, w2) →
  view_step r w2 = (Raise e, w3) →
  update self um w = (Raise e, w3)
  ∧ ((e = ConnectionError ∧ head (faults w2) = Some true
      ∧ log w3 = log w2 ++ [EvDelete (view_key r)])
     ∨ (∃ d', f_body (func r) (args r) (kw r) (delete (view_key r) (db w2)) = (Raise e, d')
              ∧ log w3 = log w2 ++ [EvDelete (view_key r);
                                    EvCall (f_name (func r)) (args r) (kw r)
                                      (delete (view_key r) (db w2))])).
Proof.
  intros Hviews Hloop Hflush Hpre Hstep. split; [|by apply view_step_raises].
  unfold django_cache_manager.update.
  rewrite (bind_return _ _ _ _ _ Hloop), (bind_return _ _ _ _ _ Hflush).
  apply bind_raise. rewrite Hviews, (view_walk_app _ _ _ _ _ Hpre). simpl.
  by apply bind_raise.
Qed.

(** *** All the namespaces *)

Lemma update_all_loop_app (um : registry) (pre rest : list string) (acc rs : list Z)
    (w w1 : world) :
  runs_updates cache_create_key glob timeout accepts_timeout um pre w rs w1 →
  update_all_loop um (pre ++ rest) acc w = update_all_loop um rest (acc ++ rs) w1.
Proof.
  intros Hruns. revert acc.
  induction Hruns as [w|ns nss w r w1 rs w2 Hns _ IH]; intros acc; simpl.
  - by rewrite app_nil_r.
  - rewrite (bind_return _ _ _ _ _ Hns), IH. by rewrite <-app_assoc.
Qed.

(** C1 (amended).  [update_all] runs [update] for the namespaces in the
    iteration order of the mapping and collects the results in that order
    for as long as the updates return; when they all return it returns the
    list, and when one raises, [update_all] raises that exception in the state
    of the failure: no list is returned and the later namespaces are not
    attempted.  Each update is the call [self.update_namespace(namespace)]
    that [update_all] makes. *)
Theorem update_all_sequential (um : registry) (pre : list string) (w w1 : world)
    (rs : list Z) :
  runs_updates cache_create_key glob timeout accepts_timeout um pre w rs w1 →
  (namespaces um = pre → update_all um w = (Return rs, w1))
  ∧ (∀ ns post e w2,
       namespaces um = pre ++ ns :: post →
       method um "update_namespace" (update_namespace um ns) w1 = (Raise e, w2) →
       update_all um w = (Raise e, w2)).
Proof.
  intros Hruns. unfold django_cache_manager.update_all. split.
  - intros ->. rewrite <-(app_nil_r pre).
    by rewrite (update_all_loop_app _ _ _ _ _ _ _ Hruns).
  - intros ns post e w2 -> Hns.
    rewrite (update_all_loop_app _ _ _ _ _ _ _ Hruns). simpl.
    by apply bind_raise.
Qed.

(** *** The mapping of namespaces *)

Lemma dict_set_keys {V} (d : list (string * V)) (name : string) (x v : V) :
  dict_get d name = Some x → map fst (dict_set d name v) = map fst d.
Proof.
  induction d as [|[k y] d IH]; simpl; [done|].
  case_decide; simpl; [done|]. intros Hget. f_equal. by apply IH.
Qed.

Lemma add_to_manager_namespaces (um : registry) (ns : string) (ignore view : bool)
    (f : pyfunc cache_db) (a : list pyval) (k : kwargs) :
  namespaces (add_to_manager um ns ignore view f a k).2 = namespaces um.
Proof.
  unfold add_to_manager, method, get. destruct (shadowed um "get"); [done|].
  destruct (dict_get (managers um) ns) eqn:Hget; [|done].
  simpl. by eapply dict_set_keys.
Qed.

(** A call leaves the registries as they were, unless it is an
    [add_to_manager] that is reached. *)
Lemma run_op_registry (o : op) (um : registry) (w : world) :
  (run_op cache_create_key glob timeout accepts_timeout o (um, w)).2.1 = um
  ∨ ∃ ns ignore isview f a k,
      (run_op cache_create_key glob timeout accepts_timeout o (um, w)).2.1
      = (add_to_manager um ns ignore isview f a k).2.
Proof.
  destruct o as [| |name|ns ignore isview f a k|ns| |app c]; simpl; try by left.
  - left. by destruct (method um "__getattr__" (λ w, (__getattr__ um name, w)) w).
  - unfold method. destruct (shadowed um "add_to_manager"); [by left|].
    right. exists ns, ignore, isview, f, a, k.
    by destruct (add_to_manager um ns ignore isview f a k).
  - left. by destruct (method um "update_namespace" (update_namespace um ns) w).
  - left. by destruct (method um "update_all" (update_all um) w).
  - left. by destruct (method um "flush_app" (flush_app app c) w).
Qed.

Lemma run_op_namespaces (o : op) (um : registry) (w : world) :
  namespaces (run_op cache_create_key glob timeout accepts_timeout o (um, w)).2.1
  = namespaces um.
Proof.
  destruct (run_op_registry o um w) as [->|(ns & ignore & isview & f & a & k & ->)];
    [done|apply add_to_manager_namespaces].
Qed.

(** C8.  Assigning or deleting an attribute of the update manager raises
    [AttributeError] and leaves the manager as it was, and whatever calls a
    client makes, one after the other, the namespaces of the manager stay
    the ones it started with. *)
Theorem namespaces_are_read_only (um : registry) (w : world) :
  (∀ name (value : CacheManager),
     run_op cache_create_key glob timeout accepts_timeout (Setattr name value) (um, w)
     = (Raise AttributeError, (um, w)))
  ∧ (∀ name,
       run_op cache_create_key glob timeout accepts_timeout (Delattr name) (um, w)
       = (Raise AttributeError, (um, w)))
  ∧ (∀ os, namespaces (run_ops cache_create_key glob timeout accepts_timeout os (um, w)).1
           = namespaces um).
Proof.
  split; [done|]. split; [done|].
  intros os. revert um w. induction os as [|o os IH]; intros um w; [done|].
  unfold run_ops in *. cbn [foldl].
  pose proof (run_op_namespaces o um w) as Hns.
  destruct (run_op cache_create_key glob timeout accepts_timeout o (um, w)) as [res [um' w']].
  cbn [snd fst] in *. by rewrite IH.
Qed.

(** *** The steps of the first loop *)

Lemma call_run (r : CallRecord) (w : world) (o : outcome pyval) (d' : cache_db) :
  f_body (func r) (args r) (kw r) (db w) = (o, d') →
  call r w = (o, after_call r w d').
Proof. intros Hf. unfold call. by rewrite Hf. Qed.

Lemma cache_set_log (c : cache_kind) (k : string) (v : pyval) (t : option Z) (w : world) :
  log (cache_set c k v t w).2 = log w ++ [EvSet k v t].
Proof. apply store_op_log. Qed.

(** A set that returned left under the key what a read finds there, and
    left the other keys alone. *)
Lemma cache_set_returned (c : cache_kind) (k : string) (v : pyval) (t : option Z)
    (w w1 : world) :
  cache_set c k v t w = (Return tt, w1) →
  cache_get k w1 = read_after_set c v t
  ∧ ∀ k', k' ≠ k → db w1 !! k' = db w !! k'.
Proof.
  unfold django_cache_manager.cache_set, store_op, cache_get, read_after_set.
  intros Hset.
  repeat (case_match; simplify_eq/=);
    rewrite ?lookup_insert_eq, ?lookup_delete_eq; (split; [done|]);
    intros k' Hk'; by rewrite ?lookup_insert_ne, ?lookup_delete_ne.
Qed.

(** The function returned: its result is set, and the loop goes on with
    one more update counted. *)
Lemma registry_loop_returned (self : CacheManager) (r : CallRecord)
    (rest : list CallRecord) (n : Z) (w : world) (v : pyval) (d' : cache_db) :
  f_body (func r) (args r) (kw r) (db w) = (Return v, d') →
  registry_loop self (r :: rest) n w =
    bind (cache_set (cache self) (record_key self r) v timeout)
         (λ _, registry_loop self rest (n + 1)%Z) (after_call r w d').
Proof.
  intros Hf. simpl. unfold bind at 1, try_except_Exception.
  by rewrite (call_run _ _ _ _ Hf).
Qed.

(** The function raised an exception derived from [Exception]: the failure
    is logged, and the loop goes on with the count as it was. *)
Lemma registry_loop_caught (self : CacheManager) (r : CallRecord)
    (rest : list CallRecord) (n : Z) (w : world) (e : pyexc) (d' : cache_db) :
  f_body (func r) (args r) (kw r) (db w) = (Raise e, d') →
  isinstance_Exception e = true →
  registry_loop self (r :: rest) n w =
    registry_loop self rest n (record_event (EvLogError (f_name (func r))) (after_call r w d')).
Proof.
  intros Hf He. simpl. unfold bind at 1, try_except_Exception.
  rewrite (call_run _ _ _ _ Hf), He. reflexivity.
Qed.

(** Any other exception leaves the loop. *)
Lemma registry_loop_uncaught (self : CacheManager) (r : CallRecord)
    (rest : list CallRecord) (n : Z) (w : world) (e : pyexc) (d' : cache_db) :
  f_body (func r) (args r) (kw r) (db w) = (Raise e, d') →
  isinstance_Exception e = false →
  registry_loop self (r :: rest) n w = (Raise e, after_call r w d').
Proof.
  intros Hf He. simpl. unfold bind at 1, try_except_Exception.
  by rewrite (call_run _ _ _ _ Hf), He.
Qed.

(** *** The order of the events of [update] *)

Local Abbreviation registry_trace := (registry_trace cache_create_key timeout).
Local Abbreviation view_trace := (view_trace cache_create_key).

Lemma registry_loop_events (self : CacheManager) (recs : list CallRecord) (n : Z) (w : world) :
  ∃ evs, log (registry_loop self recs n w).2 = log w ++ evs
         ∧ Forall (λ ev, is_flush_event ev = false) evs
         ∧ registry_trace self recs evs (negb (is_raise (registry_loop self recs n w).1)).
Proof.
  revert n w. induction recs as [|r rest IH]; intros n w.
  { exists []. rewrite app_nil_r. repeat split; [done|]. constructor. }
  destruct (f_body (func r) (args r) (kw r) (db w)) as [[v|e] d'] eqn:Hf.
  - rewrite (registry_loop_returned _ _ _ _ _ _ _ Hf). unfold bind.
    pose proof (cache_set_log (cache self) (record_key self r) v timeout
                  (after_call r w d')) as Hlog1.
    destruct (cache_set _ _ _ _ (after_call r w d')) as [[[]|e] w1] eqn:Hset;
      simpl in Hlog1.
    + destruct (IH (n + 1)%Z w1) as (evs & Hlog & Hnf & Htrace).
      eexists (_ :: _ :: evs). split; [|split].
      * rewrite Hlog, Hlog1. by rewrite <-!app_assoc.
      * by repeat constructor.
      * by constructor.
    + eexists [_; _]. split; [|split].
      * simpl. rewrite Hlog1. by rewrite <-!app_assoc.
      * by repeat constructor.
      * apply registry_trace_set_raised.
  - destruct (isinstance_Exception e) eqn:He.
    + rewrite (registry_loop_caught _ _ _ _ _ _ _ Hf He).
      destruct (IH n (record_event (EvLogError (f_name (func r))) (after_call r w d')))
        as (evs & Hlog & Hnf & Htrace).
      eexists (_ :: _ :: evs). split; [|split].
      * rewrite Hlog. simpl. by rewrite <-!app_assoc.
      * by repeat constructor.
      * by apply registry_trace_skip.
    + rewrite (registry_loop_uncaught _ _ _ _ _ _ _ Hf He).
      eexists [_]. split; [done|]. split; [by repeat constructor|].
      apply registry_trace_uncaught.
Qed.

Lemma flush_app_events (app : string) (c : cache_kind) (w : world) :
  ∃ evs, log (flush_app app c w).2 = log w ++ evs
         ∧ evs ≠ []
         ∧ Forall (λ ev, is_flush_event ev = true) evs.
Proof.
  destruct c; unfold django_cache_manager.flush_app.
  - unfold bind, django_cache_manager.cache_keys.
    destruct (store_op _ _ w) as [[keys|e] w1] eqn:Hkeys;
      pose proof (store_op_log (EvKeys ("*." +:+ app +:+ ".*"))
        (λ d, (Return (filter (λ k, glob ("*." +:+ app +:+ ".*") k = true)
                         (map fst (map_to_list d))), d)) w) as Hlog1;
      rewrite Hkeys in Hlog1; simpl in Hlog1.
    + unfold redis_delete. rewrite store_op_log, Hlog1.
      eexists [_; _]. split; [by rewrite <-app_assoc|]. split; [done|].
      by repeat constructor.
    + eexists [_]. split; [done|]. split; [done|]. by repeat constructor.
  - unfold django_cache_manager.delete_pattern. rewrite store_op_log.
    eexists [_]. split; [done|]. split; [done|]. by repeat constructor.
Qed.

(** The flush as [update] calls it: it logs nothing when the method is
    shadowed, and something whenever it returns. *)
Lemma method_flush_events (um : registry) (app : string) (c : cache_kind) (w : world) :
  ∃ evs, log (method um "flush_app" (flush_app app c) w).2 = log w ++ evs
         ∧ Forall (λ ev, is_flush_event ev = true) evs
         ∧ (is_raise (method um "flush_app" (flush_app app c) w).1 = false → evs ≠ []).
Proof.
  unfold method. destruct (shadowed um "flush_app").
  - exists []. simpl. by rewrite app_nil_r.
  - destruct (flush_app_events app c w) as (evs & Hlog & Hne & Hfl). by exists evs.
Qed.

Lemma view_walk_events (self : CacheManager) (vs : list CallRecord) (w : world) :
  ∃ evs, log (view_walk self vs w).2 = log w ++ evs
         ∧ view_trace vs evs (negb (is_raise (view_walk self vs w).1)).
Proof.
  revert w. induction vs as [|r vs IH]; intros w.
  { exists []. rewrite app_nil_r. split; [done|constructor]. }
  simpl.
  unfold django_cache_manager.view_step, bind, cache_delete, store_op, call.
  destruct (faults w) as [|[] fs] eqn:Hfaults; simpl.
  - destruct (f_body _ _ _ _) as [[v|e] d'] eqn:Hf.
    + match goal with |- context [view_walk self vs ?w1] =>
        destruct (IH w1) as (evs & Hlog & Htrace) end.
      eexists (_ :: _ :: evs). split.
      * rewrite Hlog. simpl. by rewrite <-!app_assoc.
      * constructor; [apply lookup_delete_eq|done].
    + eexists [_; _]. split; [simpl; by rewrite <-app_assoc|].
      apply view_trace_call_raised, lookup_delete_eq.
  - eexists [_]. split; [done|apply view_trace_delete_raised].
  - destruct (f_body _ _ _ _) as [[v|e] d'] eqn:Hf.
    + match goal with |- context [view_walk self vs ?w1] =>
        destruct (IH w1) as (evs & Hlog & Htrace) end.
      eexists (_ :: _ :: evs). split.
      * rewrite Hlog. simpl. by rewrite <-!app_assoc.
      * constructor; [apply lookup_delete_eq|done].
    + eexists [_; _]. split; [simpl; by rewrite <-app_assoc|].
      apply view_trace_call_raised, lookup_delete_eq.
Qed.

(** C5 (amended).  The events [update] adds to the log split into those of
    the first loop, those of the flush and those of the walk over the views,
    in this order.  The first loop flushes nothing, and its events are those
    of the records of the manager in order: a call, then the set of its
    result or the log of its failure.  A flush is attempted only when the
    first loop went through every record; the walk is entered only after the
    flush; in the walk the key of each view record is deleted right before
    the call of its function, which enters on a store that does not hold
    that key.  When [update] returns, the first loop went through every
    record, the flush took place and the walk went through every view
    record. *)
Theorem update_order (self : CacheManager) (um : registry) (w : world) :
  ∃ reg_evs flush_evs view_evs reg_done view_done,
    log (update self um w).2 = log w ++ reg_evs ++ flush_evs ++ view_evs
    ∧ Forall (λ ev, is_flush_event ev = false) reg_evs
    ∧ registry_trace self (items self) reg_evs reg_done
    ∧ Forall (λ ev, is_flush_event ev = true) flush_evs
    ∧ (flush_evs ≠ [] → reg_done = true)
    ∧ (view_evs ≠ [] → flush_evs ≠ [])
    ∧ view_trace (views um) view_evs view_done
    ∧ (∀ n w', update self um w = (Return n, w') →
         reg_done = true ∧ flush_evs ≠ [] ∧ view_done = true).
Proof.
  destruct (registry_loop_events self (items self) 0 w) as (reg & Hlog & Hnf & Hreg).
  unfold django_cache_manager.update, bind.
  destruct (registry_loop self (items self) 0 w) as [[n|e] w0] eqn:Hloop;
    simpl in Hlog, Hreg.
  - destruct (method_flush_events um (app_name self) (cache self) w0)
      as (fl & Hlog1 & Hfl & Hne).
    destruct (method um "flush_app" (flush_app (app_name self) (cache self)) w0)
      as [[c|e] w1] eqn:Hflush; simpl in Hlog1, Hne.
    + destruct (view_walk_events self (views um) w1) as (vw & Hlog2 & Hvw).
      exists reg, fl, vw, true, (negb (is_raise (view_walk self (views um) w1).1)).
      split.
      { destruct (view_walk self (views um) w1) as [[[]|e] w2]; simpl in *;
          rewrite Hlog2, Hlog1, Hlog; by rewrite <-!app_assoc. }
      repeat split; auto.
      destruct (view_walk self (views um) w1) as [[[]|e] w2]; [done|].
      by intros.
    + exists reg, fl, [], true, false. simpl. rewrite app_nil_r. split.
      { rewrite Hlog1, Hlog. by rewrite <-!app_assoc. }
      repeat split; auto; try done. apply view_trace_not_entered.
  - exists reg, [], [], false, false. simpl. rewrite !app_nil_r.
    repeat split; try done. apply view_trace_not_entered.
Qed.

(** *** A run of the first loop *)

Local Abbreviation loop_run := (loop_run cache_create_key timeout accepts_timeout).

Lemma registry_loop_app (self : CacheManager) (l1 l2 : list CallRecord) (n : Z) (w : world) :
  registry_loop self (l1 ++ l2) n w =
    bind (registry_loop self l1 n) (λ m, registry_loop self l2 m) w.
Proof.
  revert n w. induction l1 as [|r l1 IH]; intros n w; [done|].
  simpl. rewrite bind_assoc. apply bind_ext. intros [v|] w1;
    rewrite bind_assoc; apply bind_ext; intros; apply IH.
Qed.

Lemma failures_return {A} (a : A) (os : list (outcome A)) :
  failures (Return a :: os) = failures os.
Proof. unfold failures. by rewrite filter_cons_False. Qed.

Lemma failures_raise {A} (e : pyexc) (os : list (outcome A)) :
  failures (Raise e :: os) = S (failures os).
Proof. unfold failures. by rewrite filter_cons_True. Qed.

(** The first loop follows the run, and counts the calls that returned. *)
Lemma loop_run_registry_loop (self : CacheManager) (recs : list CallRecord)
    (w w0 : world) (os : list (outcome pyval)) (n : Z) :
  loop_run self recs w os w0 →
  registry_loop self recs n w =
    (Return (n + Z.of_nat (length recs) - Z.of_nat (failures os))%Z, w0).
Proof.
  intros Hrun. revert n.
  induction Hrun as [w|r rs w v d' w1 os w2 Hf Hset _ IH|r rs w e d' os w2 Hf He _ IH];
    intros n.
  - simpl. unfold ret, failures. simpl. f_equal; f_equal; lia.
  - rewrite (registry_loop_returned _ _ _ _ _ _ _ Hf), (bind_return _ _ _ _ _ Hset), IH.
    rewrite failures_return. simpl length. f_equal; f_equal; lia.
  - rewrite (registry_loop_caught _ _ _ _ _ _ _ Hf He), IH.
    rewrite failures_raise. simpl length. f_equal; f_equal; lia.
Qed.

(** A key that no function touches and no result is set under keeps its
    entry through the run. *)
Lemma loop_run_keeps (self : CacheManager) (recs : list CallRecord)
    (w w0 : world) (os : list (outcome pyval)) (k : string) :
  loop_run self recs w os w0 →
  (∀ r, r ∈ recs → leaves_key r k) →
  (∀ j r v, recs !! j = Some r → os !! j = Some (Return v) → record_key self r ≠ k) →
  db w0 !! k = db w !! k.
Proof.
  intros Hrun.
  induction Hrun as [w|r rs w v d' w1 os w2 Hf Hset _ IH|r rs w e d' os w2 Hf He _ IH];
    intros Hleave Hother; [done| |].
  - rewrite IH.
    + apply cache_set_returned in Hset as [_ Hkeep].
      rewrite Hkeep by (symmetry; apply (Hother 0%nat r v); done). simpl.
      specialize (Hleave r (list_elem_of_here _ _) (db w)). by rewrite Hf in Hleave.
    + intros r' Hr'. apply Hleave. by right.
    + intros j r' v' Hj Ho. by apply (Hother (S j) r' v').
  - rewrite IH.
    + simpl. specialize (Hleave r (list_elem_of_here _ _) (db w)).
      by rewrite Hf in Hleave.
    + intros r' Hr'. apply Hleave. by right.
    + intros j r' v' Hj Ho. by apply (Hother (S j) r' v').
Qed.

(** The last result set under a key determines what the run leaves there. *)
Lemma loop_run_last_write (self : CacheManager) (recs : list CallRecord)
    (w w0 : world) (os : list (outcome pyval)) (i : nat) (r : CallRecord) (v : pyval) :
  loop_run self recs w os w0 →
  recs !! i = Some r →
  os !! i = Some (Return v) →
  (∀ r', r' ∈ recs → leaves_key r' (record_key self r)) →
  (∀ j r' v', (i < j)%nat → recs !! j = Some r' → os !! j = Some (Return v') →
              record_key self r' ≠ record_key self r) →
  cache_get (record_key self r) w0 = read_after_set (cache self) v timeout.
Proof.
  intros Hrun. revert i.
  induction Hrun as [w|r0 rs w v0 d' w1 os w2 Hf Hset Hrest IH
                    |r0 rs w e d' os w2 Hf He Hrest IH];
    intros i Hi Ho Hleave Hlater; [done| |].
  - destruct i as [|i]; simpl in Hi, Ho.
    + simplify_eq. apply cache_set_returned in Hset as [Hread _].
      unfold cache_get in *. rewrite <-Hread. f_equal.
      apply (loop_run_keeps self rs w1 w2 os); [done| |].
      * intros r' Hr'. apply Hleave. by right.
      * intros j r' v' Hj Ho'. apply (Hlater (S j) r' v'); [lia|done..].
    + apply (IH i); [done..| |].
      * intros r' Hr'. apply Hleave. by right.
      * intros j r' v' Hij Hj Ho'. apply (Hlater (S j) r' v'); [lia|done..].
  - destruct i as [|i]; simpl in Hi, Ho; [done|].
    apply (IH i); [done..| |].
    + intros r' Hr'. apply Hleave. by right.
    + intros j r' v' Hij Hj Ho'. apply (Hlater (S j) r' v'); [lia|done..].
Qed.

(** *** The flush and the walk, once they have returned *)

(** A flush that returned removed the keys its pattern matches and no
    other, on either backend. *)
Lemma flush_app_returned (app : string) (c : cache_kind) (w w' : world) (n : Z) :
  flush_app app c w = (Return n, w') →
  ∀ k, db w' !! k = if glob ("*." +:+ app +:+ ".*") k then None else db w !! k.
Proof.
  set (pattern := "*." +:+ app +:+ ".*").
  destruct c; unfold django_cache_manager.flush_app; fold pattern.
  - unfold bind, django_cache_manager.cache_keys, redis_delete, store_op.
    set (keys := filter (λ k, glob pattern k = true) (map fst (map_to_list (db w)))).
    assert (∀ k, k ∈ keys ↔ is_Some (db w !! k) ∧ glob pattern k = true) as Hkeys.
    { intros k. unfold keys. rewrite list_elem_of_filter. split.
      - intros [Hg Hin]. split; [|done].
        apply list_elem_of_fmap in Hin as [[k' x] [-> Hin]].
        apply elem_of_map_to_list in Hin. by eexists.
      - intros [[x Hx] Hg]. split; [done|].
        apply list_elem_of_fmap. exists (k, x). split; [done|].
        by apply elem_of_map_to_list. }
    intros Hrun k.
    assert (db w' = foldr delete (db w) keys) as ->.
    { destruct (faults w) as [|[] [|[] fs]]; simpl in Hrun; try done;
        destruct keys; by simplify_eq/=. }
    rewrite lookup_foldr_delete. destruct (decide (k ∈ keys)) as [Hin|Hnin].
    + apply Hkeys in Hin as [_ ->]. done.
    + destruct (glob pattern k) eqn:Hg; [|done].
      destruct (db w !! k) eqn:Hx; [|done].
      exfalso. apply Hnin, Hkeys. by split.
  - unfold django_cache_manager.delete_pattern, store_op.
    intros Hrun k.
    assert (db w' = filter (λ kv, glob pattern kv.1 = false) (db w)) as ->.
    { destruct (faults w) as [|[] fs]; by simplify_eq/=. }
    apply filter_glob_lookup.
Qed.

(** A walk that returned left alone every key that is no view's key and
    that no view function touches. *)
Lemma view_walk_keeps (self : CacheManager) (vs : list CallRecord) (w w' : world)
    (k : string) :
  view_walk self vs w = (Return tt, w') →
  (∀ r, r ∈ vs → leaves_key r k) →
  (∀ r, r ∈ vs → view_key r ≠ k) →
  db w' !! k = db w !! k.
Proof.
  revert w. induction vs as [|r vs IH]; intros w; simpl.
  { by intros [= <-]. }
  unfold bind at 1.
  unfold django_cache_manager.view_step, bind, cache_delete, store_op, call.
  intros Hrun Hleave Hne.
  pose proof (Hleave r (list_elem_of_here _ _) (delete (view_key r) (db w))) as Hl.
  destruct (faults w) as [|[] fs] eqn:Hfaults; simpl in Hrun; try done;
    destruct (f_body _ _ _ _) as [[v|e] d'] eqn:Hf; try done;
    (apply IH in Hrun; [|by intros; apply Hleave; right|by intros; apply Hne; right]);
    rewrite Hrun; simpl; simpl in Hl; rewrite Hl;
    apply lookup_delete_ne, Hne; by left.
Qed.

(** A walk that returned did not bring back a key that was absent, unless a
    view function wrote it. *)
Lemma view_walk_keeps_absent (self : CacheManager) (vs : list CallRecord) (w w' : world)
    (k : string) :
  view_walk self vs w = (Return tt, w') →
  (∀ r, r ∈ vs → leaves_key r k) →
  db w !! k = None →
  db w' !! k = None.
Proof.
  revert w. induction vs as [|r vs IH]; intros w; simpl.
  { by intros [= <-]. }
  unfold bind at 1.
  unfold django_cache_manager.view_step, bind, cache_delete, store_op, call.
  intros Hrun Hleave Hnone.
  pose proof (Hleave r (list_elem_of_here _ _) (delete (view_key r) (db w))) as Hl.
  assert (delete (view_key r) (db w) !! k = None) as Hdel.
  { destruct (decide (view_key r = k)) as [->|Hne];
      [apply lookup_delete_eq|by rewrite lookup_delete_ne]. }
  destruct (faults w) as [|[] fs] eqn:Hfaults; simpl in Hrun; try done;
    destruct (f_body _ _ _ _) as [[v|e] d'] eqn:Hf; try done;
    (apply IH in Hrun; [done|by intros; apply Hleave; right|]);
    simpl; simpl in Hl; by rewrite Hl.
Qed.

End ManagerProperties.

Module manager_examples.
Import django_cache_manager django_samples.

Local Abbreviation update := (update create_key star_glob None accepts).
Local Abbreviation update_all := (update_all create_key star_glob None accepts).
Local Abbreviation update_namespace := (update_namespace create_key star_glob None accepts).

Example glob_matches : star_glob "*.blog.*" "site.blog.posts:count" = true.
Proof. reflexivity. Qed.

Example glob_rejects : star_glob "*.blog.*" "posts:count" = false.
Proof. reflexivity. Qed.

Example init_two :
  init CACHE_KEYS ["posts"; "site.shop.items"; "posts"] DjangoCache []
  = Return (mkRegistry [("posts", posts []);
                        ("site.shop.items", mkManager "site.shop.items" DjangoCache "shop" [])]
              []).
Proof. reflexivity. Qed.

(** A view record joins both its manager and the shared views. *)
Example add_view :
  add_to_manager (mkRegistry [("posts", posts [])] []) "posts" false true
    (constant_fn "render" (PyStr "<html>")) [] []
  = (Return true, mkRegistry [("posts", posts [r_page])] [r_page]).
Proof. reflexivity. Qed.

Example add_unknown_namespace :
  add_to_manager (mkRegistry [("posts", posts [])] []) "users" false false
    (constant_fn "count" (PyInt 3)) [] []
  = (Return false, mkRegistry [("posts", posts [])] []).
Proof. reflexivity. Qed.

(** A namespace named ["get"] takes the place of the method [get]:
    registering a call and updating a namespace raise [TypeError], and
    nothing is called or stored. *)
Example add_with_namespace_get :
  add_to_manager named_get "posts" false false (constant_fn "count" (PyInt 3)) [] []
  = (Raise TypeError, named_get).
Proof. reflexivity. Qed.

Example update_with_namespace_get :
  update_namespace named_get "posts" empty_cache = (Raise TypeError, empty_cache).
Proof. reflexivity. Qed.

(** A namespace named ["flush_app"] takes the place of the method
    [flush_app]: [update] raises [TypeError] after its first loop. *)
Example update_with_namespace_flush_app :
  let '(res, w') := update (posts [r_count]) named_flush_app empty_cache in
  res = Raise TypeError
  ∧ log w' = [EvCall "count" [] [] ∅; EvSet "posts:count" (PyInt 3) None].
Proof. vm_compute. done. Qed.

(** What [cache.set] keeps: with a timeout of zero a Django backend keeps
    nothing and a raw client keeps the string form of the value for good; a
    timeout past the server's clock is refused. *)
Example set_with_timeout_zero :
  cache_get "k" (cache_set accepts DjangoCache "k" (PyInt 3) (Some 0%Z) empty_cache).2 = None
  ∧ db (cache_set accepts StrictRedis "k" (PyInt 3) (Some 0%Z) empty_cache).2 !! "k"
    = Some (PyStr "3", None)
  ∧ (cache_set accepts DjangoCache "k" (PyInt 3) (Some (2 ^ 62)%Z) empty_cache).1
    = Raise ResponseError.
Proof. vm_compute. done. Qed.

(** C1, as stated, fails: with two namespaces registered, the flush of the
    first one finds the store unavailable; [update_all] raises, and the only
    events are those of the first namespace, although the update of the
    second one returns when it is run. *)
Lemma update_all_stops_at_first_failure :
  let '(res, w') := update_all two_namespaces second_trip_fails in
  namespaces two_namespaces = ["posts"; "site.shop.items"]
  ∧ res = Raise ConnectionError
  ∧ log w' = [EvCall "count" [] [] ∅; EvSet "posts:count" (PyInt 3) None;
              EvDeletePattern "*.blog.*"]
  ∧ (update_namespace two_namespaces "site.shop.items" w').1 = Return 1%Z.
Proof. vm_compute. done. Qed.

Lemma update_all_sequential_witness :
  (∃ w1, update_all two_namespaces empty_cache = (Return [1%Z; 1%Z], w1))
  ∧ (∃ w2, update_all two_namespaces second_trip_fails = (Raise ConnectionError, w2)).
Proof.
  split.
  - eexists.
    eapply (update_all_sequential create_key star_glob None accepts two_namespaces
              ["posts"; "site.shop.items"] empty_cache); [|reflexivity].
    eapply runs_updates_cons; [reflexivity|].
    eapply runs_updates_cons; [reflexivity|].
    apply runs_updates_nil.
  - eexists.
    eapply (update_all_sequential create_key star_glob None accepts two_namespaces
              [] second_trip_fails second_trip_fails []);
      [apply runs_updates_nil|reflexivity|reflexivity].
Defined.


Ltac sample_records H :=
  simpl in H;
  repeat (apply elem_of_cons in H as [->|H]);
  [..|by apply elem_of_nil in H].

Lemma sample_records_leave_key (key : string) (r : CallRecord) :
  r ∈ [r_count; r_broken; r_latest; r_page] → leaves_key r key.
Proof. intros Hr. sample_records Hr; by intros d. Qed.


(** The values of the witness, read back. *)
Example update_reads_back :
  let self := posts [r_count; r_broken; r_latest] in
  let um := mkRegistry [("posts", self)] [r_page] in
  let '(res, w') := update self um empty_cache in
  res = Return 2%Z
  ∧ cache_get "posts:count" w' = Some (PyInt 3)
  ∧ cache_get "posts:latest:5" w' = Some (PyStr "hello").
Proof. vm_compute. done. Qed.

(** On a raw client that holds a key of the application group the failure
    is isolated in the same way; what is read back is the string form of
    the value. *)
Example update_on_raw_client :
  let self := raw_posts [r_count; r_broken; r_latest] in
  let um := mkRegistry [("posts", self)] [] in
  let '(res, w') := update self um raw_world in
  res = Return 2%Z
  ∧ cache_get "posts:count" w' = Some (PyStr "3")
  ∧ cache_get "posts:latest:5" w' = Some (PyStr "hello")
  ∧ cache_get "site.blog.posts:count" w' = None.
Proof. vm_compute. done. Qed.

(** C5, as stated, fails: a record registered as a view is in the registry
    of its namespace and in the view mirror.  On a cache that holds its key
    from an earlier run, the first thing [update] does is call its function,
    which enters while the key is in the store; the key is deleted only
    later, in the walk. *)
Lemma view_function_runs_before_its_key_is_deleted :
  let self := posts [r_page] in
  let um := mkRegistry [("posts", self)] [r_page] in
  r_page ∈ views um
  ∧ view_key create_key r_page = "posts:render"
  ∧ ∃ seen rest,
      new_events stale_page (update self um stale_page).2
      = EvCall "render" [] [] seen :: rest
      ∧ seen !! "posts:render" = Some (PyStr "<old>", None)
      ∧ rest = [EvSet "posts:render" (PyStr "<html>") None;
                EvDeletePattern "*.blog.*";
                EvDelete "posts:render";
                EvCall "render" [] [] ∅].
Proof.
  intros self um. split; [by left|]. split; [reflexivity|].
  eexists _, _. split; [vm_compute; reflexivity|]. split; reflexivity.
Qed.

(** The events of an update whose manager holds a view record: the first
    loop calls the function and sets the result, the flush follows, and the
    walk deletes the key before it calls the function once more. *)
Example update_trace_with_view :
  let self := posts [r_page] in
  let um := mkRegistry [("posts", self)] [r_page] in
  log (update self um empty_cache).2
  = [EvCall "render" [] [] ∅;
     EvSet "posts:render" (PyStr "<html>") None;
     EvDeletePattern "*.blog.*";
     EvDelete "posts:render";
     EvCall "render" [] [] ∅].
Proof. vm_compute. done. Qed.

Lemma view_failure_aborts_update_witness :
  let self := posts [r_count] in
  let um := mkRegistry [("posts", self)] [r_page; r_broken_page; r_page] in
  ∃ w3, update self um empty_cache = (Raise ValueError, w3)
        ∧ log w3 = [EvCall "count" [] [] ∅; EvSet "posts:count" (PyInt 3) None;
                    EvDeletePattern "*.blog.*";
                    EvDelete "posts:render";
                    EvCall "render" [] [] {[ "posts:count" := (PyInt 3, None) ]};
                    EvDelete "posts:broken_page";
                    EvCall "broken_page" [] [] {[ "posts:count" := (PyInt 3, None) ]}].
Proof.
  intros self um.
  edestruct (view_failure_aborts_update create_key star_glob None accepts self um
               [r_page] [r_page] r_broken_page empty_cache) as [Hrun _];
    [reflexivity..|].
  eexists. split; [exact Hrun|]. vm_compute. done.
Defined.

Lemma flush_app_raises_without_match_witness :
  ∃ w', flush_app star_glob "blog" StrictRedis one_entry = (Raise ResponseError, w')
        ∧ db w' = db one_entry
        ∧ log w' = [EvKeys "*.blog.*"; EvDeleteKeys []].
Proof.
  destruct (flush_app_raises_without_match star_glob "blog" one_entry)
    as (e & w' & Hrun & Hdb & Hreached).
  - intros k [x Hk]. unfold one_entry in Hk. cbn [db] in Hk.
    apply lookup_singleton_Some in Hk as [<- _]. reflexivity.
  - destruct Hreached as [-> Hlog]; [apply Forall_nil_2|].
    exists w'. split; [exact Hrun|]. split; [exact Hdb|]. exact Hlog.
Defined.

(** On a Django backend the same flush returns the count 0. *)
Example flush_app_django_without_match :
  (flush_app star_glob "blog" DjangoCache one_entry).1 = Return 0%Z.
Proof. reflexivity. Qed.

(** With a matching key the raw client deletes it and returns the count. *)
Example flush_app_raw_with_match :
  let w := mkWorld {[ "site.blog.posts:count" := (PyInt 3, None);
                      "sessions:42" := (PyStr "alice", None) ]} [] [] in
  let '(res, w') := flush_app star_glob "blog" StrictRedis w in
  res = Return 1%Z
  ∧ db w' = {[ "sessions:42" := (PyStr "alice", None) ]}
  ∧ log w' = [EvKeys "*.blog.*"; EvDeleteKeys ["site.blog.posts:count"]].
Proof. vm_compute. done. Qed.
End manager_examples.


(** * Further properties *)

(** ** Keys and the decorator *)

Section KeyExtras.
Context {S : Type}.
Import cache_manager.

(** X1.  When the first declared parameter of [f] is [self] or [cls], the
    key does not depend on the first argument: two calls that differ only in
    the receiver share one key. *)
Theorem key_ignores_receiver (self : CacheManager) (f : pyfunc S) (a b : pyval)
    (rest : list pyval) :
  skip_count f = 1%nat →
  key self f (a :: rest) = key self f (b :: rest).
Proof.
  intros Hskip.
  assert (f_args f ≠ []) as Hf.
  { unfold skip_count in Hskip. by destruct (f_args f). }
  rewrite !key_unfold by done. by rewrite Hskip.
Qed.
End KeyExtras.

Section DecoratorExtras.
Import cache_manager.
Variable get_current_connection : option connection_handle.
Variable before_save : pyval → list pyval → kwargs → outcome string.
Variable after_load : pyval → list pyval → kwargs → outcome pyval.
Variable accepts_ttl : Z → bool.

Local Abbreviation wrapper :=
  (wrapper get_current_connection before_save after_load accepts_ttl).
Local Abbreviation connection := (connection get_current_connection).

Ltac run_decorated :=
  unfold cache_manager.wrapper, bind, load, save, redis_get, redis_set, redis_expire,
    call, lift, ret, record_event; simpl; cbn [db log].

(** The run of a miss that saves. *)
Lemma wrapper_miss_saves (self : CacheManager) (ttl : option Z) (f : pyfunc redis_db)
    (args : list pyval) (kw : kwargs) (w : world) (c : connection_handle)
    (v : pyval) (d' : redis_db) (b : string) :
  connection self = Some c →
  truthy (stored (db w) (key self f args)) = false →
  f_body f args kw (db w) = (Return v, d') →
  v ≠ PyNone →
  before_save v args kw = Return b →
  wrapper self ttl f args kw w =
    (if expire_refused accepts_ttl ttl then Raise ResponseError else Return v,
     {| db := saved accepts_ttl ttl (key self f args) b d';
        log := log w ++ miss_events ttl (key self f args) (f_name f) args kw b |}).
Proof.
  intros Hc Hmiss Hf Hv Hb. run_decorated. rewrite Hc. simpl. rewrite Hmiss. simpl.
  rewrite Hf. simpl. rewrite bool_decide_true by done. simpl. rewrite Hb. simpl.
  unfold saved, miss_events, expire_refused.
  destruct (ttl_set ttl) as [t|]; simpl.
  - destruct (accepts_ttl t); simpl.
    + rewrite lookup_insert_eq. by rewrite <-!app_assoc.
    + by rewrite <-!app_assoc.
  - by rewrite <-!app_assoc.
Qed.

Lemma stored_saved (ttl : option Z) (k b : string) (d : redis_db) :
  stored (saved accepts_ttl ttl k b d) k = PyStr b
  ∨ stored (saved accepts_ttl ttl k b d) k = PyNone.
Proof.
  unfold saved, stored. destruct (ttl_set ttl) as [t|].
  - destruct (accepts_ttl t); [|left; by rewrite lookup_insert_eq].
    case_bool_decide.
    + left. by rewrite lookup_insert_eq.
    + right. by rewrite lookup_delete_eq.
  - left. by rewrite lookup_insert_eq.
Qed.

(** X2.  What a miss leaves in the store.  The encoded result is set under
    the key of the call; for a time-to-live that is unset or zero nothing
    follows and the call returns the result.  For any other time-to-live the
    expire follows: when the server accepts it the call returns the result,
    and the key holds the encoded result with the time-to-live when it is
    positive and is gone when it is negative; when the server refuses it the
    call raises [ResponseError] and the key keeps the encoded result without
    a time-to-live.  Every other key is as the function left it, and the
    events are the get, the call, the set and, for a non-zero time-to-live,
    the expire. *)
Theorem miss_saves_encoded_result (self : CacheManager) (ttl : option Z)
    (f : pyfunc redis_db) (args : list pyval) (kw : kwargs) (w : world)
    (c : connection_handle) (v : pyval) (d' : redis_db) (b : string) :
  connection self = Some c →
  truthy (stored (db w) (key self f args)) = false →
  f_body f args kw (db w) = (Return v, d') →
  v ≠ PyNone →
  before_save v args kw = Return b →
  ∃ w', wrapper self ttl f args kw w =
          (match ttl with
           | Some t => if bool_decide (t = 0)%Z then Return v
                       else if accepts_ttl t then Return v else Raise ResponseError
           | None => Return v
           end, w')
        ∧ db w' !! key self f args =
            match ttl with
            | Some t => if bool_decide (t = 0)%Z then Some (b, None)
                        else if accepts_ttl t then
                          if bool_decide (0 < t)%Z then Some (b, Some t) else None
                        else Some (b, None)
            | None => Some (b, None)
            end
        ∧ (∀ k', k' ≠ key self f args → db w' !! k' = d' !! k')
        ∧ new_events w w' =
            [EvGet (key self f args); EvCall (f_name f) args kw; EvSet (key self f args) b]
            ++ match ttl with
               | Some t => if bool_decide (t = 0)%Z then [] else [EvExpire (key self f args) t]
               | None => []
               end.
Proof.
  intros Hc Hmiss Hf Hv Hb. eexists. split.
  { rewrite (wrapper_miss_saves _ _ _ _ _ _ c v d' b) by done. f_equal.
    unfold expire_refused, ttl_set. destruct ttl as [t|]; [|done].
    case_bool_decide; [done|]. by destruct (accepts_ttl t). }
  simpl. unfold saved, miss_events, ttl_set. split; [|split].
  - destruct ttl as [t|]; [|by rewrite lookup_insert_eq].
    case_bool_decide; [by rewrite lookup_insert_eq|].
    destruct (accepts_ttl t); [|by rewrite lookup_insert_eq].
    case_bool_decide; [by rewrite lookup_insert_eq|by rewrite lookup_delete_eq].
  - intros k' Hk'. destruct ttl as [t|]; [|by rewrite lookup_insert_ne].
    case_bool_decide; [by rewrite lookup_insert_ne|].
    destruct (accepts_ttl t); [|by rewrite lookup_insert_ne].
    case_bool_decide; [by rewrite !lookup_insert_ne|].
    by rewrite lookup_delete_ne, lookup_insert_ne.
  - unfold new_events. simpl. rewrite drop_app_length.
    destruct ttl as [t|]; [|done]. by case_bool_decide.
Qed.

(** X3.  Keyword arguments do not enter the key: after a miss that saved a
    non-empty encoding under a positive or unset time-to-live, the same call
    with other keyword arguments does not run the function; it decodes what
    the first call saved.  The first call returns the result, unless the
    server refused its expire; the entry is there in both cases. *)
Theorem keyword_arguments_share_the_entry (self : CacheManager) (ttl : option Z)
    (f : pyfunc redis_db) (args : list pyval) (kw1 kw2 : kwargs) (w : world)
    (c : connection_handle) (v : pyval) (d' : redis_db) (b : string) :
  connection self = Some c →
  (∀ t, ttl_set ttl = Some t → (0 < t)%Z) →
  truthy (stored (db w) (key self f args)) = false →
  f_body f args kw1 (db w) = (Return v, d') →
  v ≠ PyNone →
  before_save v args kw1 = Return b →
  b ≠ "" →
  ∃ w1 w2, wrapper self ttl f args kw1 w =
             (if expire_refused accepts_ttl ttl then Raise ResponseError else Return v, w1)
           ∧ wrapper self ttl f args kw2 w1 = (after_load (PyStr b) args kw2, w2)
           ∧ db w2 = db w1
           ∧ invocations (new_events w1 w2) = 0%nat.
Proof.
  intros Hc Httl Hmiss Hf Hv Hb Hne. eexists _, _.
  split; [by eapply wrapper_miss_saves|].
  assert (stored (saved accepts_ttl ttl (key self f args) b d') (key self f args)
          = PyStr b) as Hst.
  { unfold saved, stored. destruct (ttl_set ttl) as [t|] eqn:Ht.
    - destruct (accepts_ttl t); [|by rewrite lookup_insert_eq].
      rewrite bool_decide_true by auto. by rewrite lookup_insert_eq.
    - by rewrite lookup_insert_eq. }
  rewrite (wrapper_hit _ _ _ _ _ _ _ _ _ _ c) by
    (try done; simpl; rewrite Hst; by apply truthy_stored_bytes).
  simpl. rewrite Hst. split; [done|]. split; [done|].
  unfold new_events. simpl. by rewrite drop_app_length.
Qed.

(** X4.  Without a connection nothing is read or written: the only event is
    the call, the store is what the function left, and the outcome is the
    function's, except that a result other than [None] is still passed to
    [before_save], whose exception then replaces it. *)
Theorem no_connection_no_store_access (self : CacheManager) (ttl : option Z)
    (f : pyfunc redis_db) (args : list pyval) (kw : kwargs) (w : world)
    (o : outcome pyval) (d' : redis_db) :
  connection self = None →
  f_body f args kw (db w) = (o, d') →
  wrapper self ttl f args kw w =
    (match o with
     | Return v =>
         if bool_decide (v = PyNone) then Return v
         else match before_save v args kw with
              | Return _ => Return v
              | Raise e => Raise e
              end
     | Raise e => Raise e
     end,
     {| db := d'; log := log w ++ [EvCall (f_name f) args kw] |}).
Proof.
  intros Hc Hf. run_decorated. rewrite Hc. simpl. rewrite Hf. simpl.
  destruct o as [v|e]; [|done]. simpl.
  destruct (decide (v = PyNone)) as [->|Hv].
  - by rewrite bool_decide_false, bool_decide_true by naive_solver.
  - rewrite bool_decide_true, bool_decide_false by done. simpl.
    by destruct (before_save v args kw).
Qed.

Lemma after_calls_hit (self : CacheManager) (ttl : option Z) (f : pyfunc redis_db)
    (args : list pyval) (kw : kwargs) (c : connection_handle) (n : nat) (w : world) :
  connection self = Some c →
  truthy (stored (db w) (key self f args)) = true →
  db (after_calls (wrapper self ttl f args kw) n w) = db w
  ∧ log (after_calls (wrapper self ttl f args kw) n w)
    = log w ++ replicate n (EvGet (key self f args)).
Proof.
  intros Hc. revert w. induction n as [|n IH]; intros w Hhit; simpl.
  - by rewrite app_nil_r.
  - rewrite (wrapper_hit _ _ _ _ _ _ _ _ _ _ c) by done. simpl.
    destruct (IH (record_event (EvGet (key self f args)) w)) as [Hdb Hlog]; [done|].
    rewrite Hdb, Hlog. simpl. by rewrite <-app_assoc.
Qed.

(** X5.  Non-empty bytes under the key are served as they are for ever: any
    number of calls later the store is unchanged, the function was never
    run, and the next call still gives what [after_load] makes of those
    bytes; bytes it cannot decode make every call raise the same exception. *)
Theorem stored_bytes_are_served_unchanged (self : CacheManager) (ttl : option Z)
    (f : pyfunc redis_db) (args : list pyval) (kw : kwargs) (w : world)
    (c : connection_handle) (n : nat) :
  connection self = Some c →
  truthy (stored (db w) (key self f args)) = true →
  let wn := after_calls (wrapper self ttl f args kw) n w in
  (wrapper self ttl f args kw wn).1 = after_load (stored (db w) (key self f args)) args kw
  ∧ db wn = db w
  ∧ new_events w wn = replicate n (EvGet (key self f args))
  ∧ invocations (new_events w wn) = 0%nat.
Proof.
  intros Hc Hhit wn.
  destruct (after_calls_hit self ttl f args kw c n w Hc Hhit) as [Hdb Hlog].
  fold wn in Hdb, Hlog.
  assert (new_events w wn = replicate n (EvGet (key self f args))) as Hnew
    by (by apply new_events_app).
  split; [|split; [done|split; [done|]]].
  - rewrite (wrapper_hit _ _ _ _ _ _ _ _ _ _ c) by (try done; by rewrite Hdb).
    simpl. by rewrite Hdb.
  - rewrite Hnew. unfold invocations. clear. induction n; [done|]. simpl.
    rewrite filter_cons_False by done. done.
Qed.

(** X6.  On a miss, an exception of the function, or of [before_save] on a
    result other than [None], is raised to the caller and nothing is saved:
    the store is what the function left and no set or expire is logged. *)
Theorem miss_failure_saves_nothing (self : CacheManager) (ttl : option Z)
    (f : pyfunc redis_db) (args : list pyval) (kw : kwargs) (w : world)
    (e : pyexc) (d' : redis_db) :
  (connection self = None ∨ truthy (stored (db w) (key self f args)) = false) →
  (f_body f args kw (db w) = (Raise e, d')
   ∨ ∃ v, f_body f args kw (db w) = (Return v, d') ∧ v ≠ PyNone
          ∧ before_save v args kw = Raise e) →
  ∃ w', wrapper self ttl f args kw w = (Raise e, w')
        ∧ db w' = d'
        ∧ Forall (λ ev, is_write ev = false) (new_events w w')
        ∧ invocations (new_events w w') = 1%nat.
Proof.
  intros Hmiss Hfail.
  assert (wrapper self ttl f args kw w =
            (Raise e,
             {| db := d';
                log := log w ++ match connection self with
                                | Some _ => [EvGet (key self f args)]
                                | None => []
                                end ++ [EvCall (f_name f) args kw] |})) as Hrun.
  { run_decorated. destruct (connection self); simpl.
    - destruct Hmiss as [ | -> ]; [done|]. simpl.
      destruct Hfail as [Hf|(v & Hf & Hv & Hb)]; rewrite Hf; simpl.
      + by rewrite <-app_assoc.
      + rewrite bool_decide_true by done. simpl. rewrite Hb. simpl.
        by rewrite <-app_assoc.
    - destruct Hfail as [Hf|(v & Hf & Hv & Hb)]; rewrite Hf; simpl; [done|].
      rewrite bool_decide_true by done. simpl. by rewrite Hb. }
  eexists. split; [exact Hrun|]. split; [done|].
  unfold new_events. simpl. rewrite drop_app_length.
  destruct (connection self); split; by repeat constructor.
Qed.

(** X7.  A result whose encoded form is the empty string is saved but never
    served: the call that follows finds the empty bytes, takes them for a
    miss and runs the function again.  The first call returns the result,
    unless the server refused its expire. *)
Theorem empty_encoding_is_never_served (self : CacheManager) (ttl : option Z)
    (f : pyfunc redis_db) (args : list pyval) (kw : kwargs) (w : world)
    (c : connection_handle) (v : pyval) (d' : redis_db) :
  connection self = Some c →
  truthy (stored (db w) (key self f args)) = false →
  f_body f args kw (db w) = (Return v, d') →
  v ≠ PyNone →
  before_save v args kw = Return "" →
  ∃ w1, wrapper self ttl f args kw w =
          (if expire_refused accepts_ttl ttl then Raise ResponseError else Return v, w1)
        ∧ EvSet (key self f args) "" ∈ new_events w w1
        ∧ invocations (new_events w1 (wrapper self ttl f args kw w1).2) = 1%nat.
Proof.
  intros Hc Hmiss Hf Hv Hb. eexists. split; [by eapply wrapper_miss_saves|]. split.
  - unfold new_events. simpl. rewrite drop_app_length. unfold miss_events.
    apply elem_of_app. left. set_solver.
  - apply wrapper_miss_invokes. right. simpl.
    by destruct (stored_saved ttl (key self f args) "" d') as [-> | ->].
Qed.
End DecoratorExtras.

(** ** Dictionaries *)

Lemma dict_get_None {V} (d : list (string * V)) (name : string) :
  dict_get d name = None ↔ name ∉ map fst d.
Proof.
  induction d as [|[k v] d IH]; simpl.
  - split; [intros _; apply not_elem_of_nil|done].
  - rewrite not_elem_of_cons. case_decide; naive_solver.
Qed.

Lemma dict_get_Some_elem {V} (d : list (string * V)) (name : string) (v : V) :
  dict_get d name = Some v → name ∈ map fst d.
Proof.
  intros Hget. destruct (decide (name ∈ map fst d)) as [|Hno]; [done|].
  apply dict_get_None in Hno. congruence.
Qed.

Lemma dict_get_set_eq {V} (d : list (string * V)) (name : string) (v : V) :
  dict_get (dict_set d name v) name = Some v.
Proof.
  induction d as [|[k x] d IH]; simpl.
  - by rewrite decide_True.
  - case_decide; simpl; [by rewrite decide_True|by rewrite decide_False].
Qed.

Lemma dict_get_set_ne {V} (d : list (string * V)) (name name' : string) (v : V) :
  name ≠ name' → dict_get (dict_set d name v) name' = dict_get d name'.
Proof.
  intros Hne. induction d as [|[k x] d IH]; simpl.
  - by rewrite decide_False.
  - case_decide; simpl.
    + subst k. by rewrite !decide_False.
    + by rewrite IH.
Qed.

Lemma dict_set_keys_new {V} (d : list (string * V)) (name : string) (v : V) :
  dict_get d name = None → map fst (dict_set d name v) = map fst d ++ [name].
Proof.
  induction d as [|[k x] d IH]; simpl; [done|].
  case_decide; [done|]. intros Hget. simpl. f_equal. by apply IH.
Qed.

Lemma dict_set_elem {V} (d : list (string * V)) (name name' : string) (v : V) :
  name' ∈ map fst (dict_set d name v) ↔ name' = name ∨ name' ∈ map fst d.
Proof.
  destruct (dict_get d name) as [x|] eqn:Hget.
  - rewrite (dict_set_keys _ _ x) by done.
    apply dict_get_Some_elem in Hget. naive_solver.
  - rewrite dict_set_keys_new by done. rewrite elem_of_app, list_elem_of_singleton.
    naive_solver.
Qed.

Lemma dict_set_NoDup {V} (d : list (string * V)) (name : string) (v : V) :
  NoDup (map fst d) → NoDup (map fst (dict_set d name v)).
Proof.
  intros Hnd. destruct (dict_get d name) as [x|] eqn:Hget.
  - by rewrite (dict_set_keys _ _ x).
  - rewrite dict_set_keys_new by done. apply NoDup_app. split; [done|].
    split; [|apply NoDup_singleton].
    intros k Hk Hin. apply list_elem_of_singleton in Hin as ->.
    by apply dict_get_None in Hget.
Qed.

(** ** Registration *)

Section RegistrationExtras.
Import django_cache_manager.

(** X9.  The call [um.add_to_manager(...)] raises [TypeError] and changes
    nothing when a namespace of the manager is named ["add_to_manager"] or
    ["get"], since that namespace is found in the place of the method.
    Otherwise it answers [False] and changes nothing for an unknown
    namespace; for a known one it answers [True], puts the record, tagged
    with that namespace, at the end of that manager's records, adds it to
    the shared views exactly when it is flagged as a view, and leaves every
    other manager and the list of namespaces as they were. *)
Theorem add_to_manager_appends (um : registry) (ns : string) (ignore isview : bool)
    (f : pyfunc cache_db) (a : list pyval) (k : kwargs) :
  let '(answer, um') :=
    method um "add_to_manager" (λ um, add_to_manager um ns ignore isview f a k) um in
  let tup := mkCall f ignore isview ns a k in
  if shadowed um "add_to_manager" || shadowed um "get"
  then answer = Raise TypeError ∧ um' = um
  else
    match get um ns with
    | None => answer = Return false ∧ um' = um
    | Some m =>
        answer = Return true
        ∧ get um' ns = Some (mkManager (namespace m) (cache m) (app_name m) (items m ++ [tup]))
        ∧ (∀ ns', ns' ≠ ns → get um' ns' = get um ns')
        ∧ views um' = (if isview then views um ++ [tup] else views um)
        ∧ namespaces um' = namespaces um
    end.
Proof.
  unfold add_to_manager, method.
  destruct (shadowed um "add_to_manager"); [done|].
  destruct (shadowed um "get"); [done|]. simpl.
  destruct (get um ns) as [m|] eqn:Hget; [|done].
  simpl. unfold get in *. simpl. split; [done|].
  split; [apply dict_get_set_eq|]. split; [|split; [done|]].
  - intros ns' Hne. by apply dict_get_set_ne.
  - by eapply dict_set_keys.
Qed.

Lemma extends_refl (um : registry) : extends um um.
Proof. split; [|done]. intros ns m Hget. eexists. by split. Qed.

Lemma extends_trans (um1 um2 um3 : registry) :
  extends um1 um2 → extends um2 um3 → extends um1 um3.
Proof.
  intros [H12 Hv12] [H23 Hv23]. split; [|by etrans].
  intros ns m Hget. destruct (H12 ns m Hget) as (m2 & Hget2 & Hp2 & ? & ? & ?).
  destruct (H23 ns m2 Hget2) as (m3 & Hget3 & Hp3 & ? & ? & ?).
  exists m3. split; [done|]. split; [by etrans|]. split_and!; congruence.
Qed.

Lemma add_to_manager_extends (um : registry) (ns : string) (ignore isview : bool)
    (f : pyfunc cache_db) (a : list pyval) (k : kwargs) :
  extends um (add_to_manager um ns ignore isview f a k).2.
Proof.
  unfold add_to_manager, method.
  destruct (shadowed um "get"); [apply extends_refl|].
  destruct (get um ns) as [m|] eqn:Hget; simpl.
  - split; simpl.
    + intros ns' m' Hget'. unfold get in *. simpl.
      destruct (decide (ns = ns')) as [<-|Hne].
      * rewrite dict_get_set_eq. simplify_eq. eexists. split; [done|]. simpl.
        split; [by apply prefix_app_r|done].
      * rewrite dict_get_set_ne by done. eexists. by split.
    + destruct isview; [by apply prefix_app_r|done].
  - split; [|done]. intros ns' m' Hget'. eexists. by split.
Qed.

Lemma add_to_manager_registered (um : registry) (ns : string) (ignore isview : bool)
    (f : pyfunc cache_db) (a : list pyval) (k : kwargs) :
  registered um → registered (add_to_manager um ns ignore isview f a k).2.
Proof.
  intros (Hnd & Hms & Hvs). unfold add_to_manager, method.
  destruct (shadowed um "get"); [done|].
  destruct (get um ns) as [m|] eqn:Hget; [|done]. simpl.
  destruct (Hms ns m Hget) as [Hname Hrecs].
  split; [|split]; simpl.
  - unfold namespaces. simpl. unfold get in Hget. by erewrite dict_set_keys.
  - intros ns' m' Hget'. unfold get in *. simpl in Hget'.
    destruct (decide (ns = ns')) as [<-|Hne].
    + rewrite dict_get_set_eq in Hget'. simplify_eq. simpl. split; [done|].
      intros r Hr. apply elem_of_app in Hr as [Hr|Hr].
      * destruct (Hrecs r Hr) as [? Hview]. split; [done|].
        intros Hv. specialize (Hview Hv). destruct isview; [|done].
        apply elem_of_app. by left.
      * apply list_elem_of_singleton in Hr as ->. simpl. split; [done|].
        intros ->. apply elem_of_app. right. by apply list_elem_of_singleton.
    + rewrite dict_get_set_ne in Hget' by done.
      destruct (Hms ns' m' Hget') as [? Hrecs']. split; [done|].
      intros r Hr. destruct (Hrecs' r Hr) as [? Hview]. split; [done|].
      intros Hv. specialize (Hview Hv). destruct isview; [|done].
      apply elem_of_app. by left.
  - intros r Hr. destruct isview; [|by apply Hvs].
    apply elem_of_app in Hr as [Hr|Hr]; [by apply Hvs|].
    by apply list_elem_of_singleton in Hr as ->.
Qed.

End RegistrationExtras.

Section InitExtras.
Import django_cache_manager.
Variable CACHE_KEYS : gmap string string.

Local Abbreviation init := (init CACHE_KEYS).
Local Abbreviation init_managers := (init_managers CACHE_KEYS).

Lemma init_managers_spec (keys : list string) (c : cache_kind)
    (acc : list (string * CacheManager)) :
  (∀ k, k ∈ keys → is_Some (CACHE_KEYS !! k)) →
  NoDup (map fst acc) →
  (∀ ns m, dict_get acc ns = Some m →
           ∃ app, CACHE_KEYS !! ns = Some app ∧ m = mkManager ns c app []) →
  ∃ ms, init_managers keys c acc = Return ms
        ∧ NoDup (map fst ms)
        ∧ (∀ ns, ns ∈ map fst ms ↔ ns ∈ map fst acc ∨ ns ∈ keys)
        ∧ ∀ ns m, dict_get ms ns = Some m →
                  ∃ app, CACHE_KEYS !! ns = Some app ∧ m = mkManager ns c app [].
Proof.
  revert acc. induction keys as [|key keys IH]; intros acc Hkeys Hnd Hacc; simpl.
  - exists acc. split; [done|]. split; [done|]. split; [|done].
    intros ns. rewrite elem_of_nil. naive_solver.
  - destruct (Hkeys key) as [app Happ]; [by left|]. rewrite Happ.
    destruct (IH (dict_set acc key (mkManager key c app []))) as (ms & Hrun & Hnd' & Hin & Hms).
    + intros k Hk. apply Hkeys. by right.
    + by apply dict_set_NoDup.
    + intros ns m Hget. destruct (decide (key = ns)) as [<-|Hne].
      * rewrite dict_get_set_eq in Hget. simplify_eq. eauto.
      * rewrite dict_get_set_ne in Hget by done. eauto.
    + exists ms. split; [done|]. split; [done|]. split; [|done].
      intros ns. rewrite Hin, dict_set_elem, elem_of_cons. naive_solver.
Qed.

(** X11.  When every key has an application group in [settings.CACHE_KEYS],
    the constructor returns a manager whose namespaces are distinct and are
    exactly the keys given, each with an empty registry that carries its
    namespace, the shared cache and its application group; the shared views
    are not touched. *)
Theorem init_builds_empty_managers (keys : list string) (c : cache_kind)
    (vs : list CallRecord) :
  (∀ k, k ∈ keys → is_Some (CACHE_KEYS !! k)) →
  ∃ um, init keys c vs = Return um
        ∧ views um = vs
        ∧ NoDup (namespaces um)
        ∧ (∀ ns, ns ∈ namespaces um ↔ ns ∈ keys)
        ∧ ∀ ns m, get um ns = Some m →
                  ∃ app, CACHE_KEYS !! ns = Some app ∧ m = mkManager ns c app [].
Proof.
  intros Hkeys.
  destruct (init_managers_spec keys c [] Hkeys) as (ms & Hrun & Hnd & Hin & Hms).
  { apply NoDup_nil_2. }
  { done. }
  exists (mkRegistry ms vs). unfold django_cache_manager.init. rewrite Hrun.
  split; [done|]. split; [done|]. split; [done|]. split; [|done].
  intros ns. unfold namespaces. simpl. rewrite Hin, elem_of_nil. naive_solver.
Qed.

Lemma init_managers_missing (keys : list string) (c : cache_kind)
    (acc : list (string * CacheManager)) (k : string) :
  k ∈ keys → CACHE_KEYS !! k = None →
  init_managers keys c acc = Raise KeyError.
Proof.
  revert acc. induction keys as [|key keys IH]; intros acc Hk Hnone; simpl.
  - by apply elem_of_nil in Hk.
  - destruct (CACHE_KEYS !! key) as [app|] eqn:Happ; [|done].
    apply elem_of_cons in Hk as [->|Hk]; [congruence|]. by apply IH.
Qed.

(** X12.  A key without an application group in [settings.CACHE_KEYS] makes
    the constructor raise [KeyError]: no manager is built. *)
Theorem init_missing_application_group (keys : list string) (c : cache_kind)
    (vs : list CallRecord) (k : string) :
  k ∈ keys → CACHE_KEYS !! k = None →
  init keys c vs = Raise KeyError.
Proof.
  intros Hk Hnone. unfold django_cache_manager.init.
  by rewrite (init_managers_missing keys c [] k).
Qed.

Lemma init_registered (keys : list string) (c : cache_kind) (um : registry) :
  init keys c [] = Return um → registered um.
Proof.
  unfold django_cache_manager.init. intros Hinit.
  destruct (init_managers keys c []) as [ms|e] eqn:Hrun; [|done]. simplify_eq.
  assert (∀ k, k ∈ keys → is_Some (CACHE_KEYS !! k)) as Hkeys.
  { intros k Hk. destruct (CACHE_KEYS !! k) eqn:Hget; [done|].
    by rewrite (init_managers_missing keys c [] k) in Hrun. }
  destruct (init_managers_spec keys c [] Hkeys) as (ms' & Hrun' & Hnd & _ & Hms);
    [apply NoDup_nil_2|done|].
  rewrite Hrun in Hrun'. simplify_eq.
  split; [done|]. split.
  - intros ns m Hget. destruct (Hms ns m Hget) as (app & _ & ->). simpl.
    split; [done|]. intros r Hr. by apply elem_of_nil in Hr.
  - intros r Hr. by apply elem_of_nil in Hr.
Qed.

End InitExtras.

Section RegistryExtras.
Import django_cache_manager.
Variable cache_create_key : string → bool → string → list pyval → kwargs → string.
Variable glob : string → string → bool.
Variable timeout : option Z.
Variable accepts_timeout : Z → bool.
Variable CACHE_KEYS : gmap string string.

Local Abbreviation run_op := (run_op cache_create_key glob timeout accepts_timeout).
Local Abbreviation run_ops := (run_ops cache_create_key glob timeout accepts_timeout).
Local Abbreviation init := (init CACHE_KEYS).

(** X10.  The registries are append-only: through any sequence of calls on
    the update manager every manager stays registered with the same
    namespace, cache and application group, its records are a prefix of
    what it holds afterwards, and so are the shared views. *)
Theorem registries_are_append_only (os : list op) (um : registry) (w : world) :
  extends um (run_ops os (um, w)).1.
Proof.
  revert um w. induction os as [|o os IH]; intros um w; [apply extends_refl|].
  unfold django_cache_manager.run_ops in *. cbn [foldl].
  pose proof (run_op_registry cache_create_key glob timeout accepts_timeout o um w) as Hop.
  destruct (run_op o (um, w)) as [res [um' w']]. cbn [snd fst] in *.
  eapply extends_trans; [|apply IH].
  destruct Hop as [->|(ns & ignore & isview & f & a & k & ->)];
    [apply extends_refl|apply add_to_manager_extends].
Qed.

(** X13.  From a freshly constructed manager and empty shared views, through
    any sequence of calls: the namespaces stay distinct, every manager
    carries the namespace it is filed under, every record carries the
    namespace of its manager (so the key the view walk deletes is the key
    the first loop writes), every record flagged as a view is in the shared
    views, and the shared views hold flagged records only. *)
Theorem registration_invariant (keys : list string) (c : cache_kind) (um : registry)
    (os : list op) (w : world) :
  init keys c [] = Return um →
  registered (run_ops os (um, w)).1.
Proof.
  intros Hinit. apply init_registered in Hinit.
  revert um w Hinit. induction os as [|o os IH]; intros um w Hreg; [done|].
  unfold django_cache_manager.run_ops in *. cbn [foldl].
  pose proof (run_op_registry cache_create_key glob timeout accepts_timeout o um w) as Hop.
  destruct (run_op o (um, w)) as [res [um' w']]. cbn [snd fst] in *.
  apply IH.
  destruct Hop as [->|(ns & ignore & isview & f & a & k & ->)];
    [done|by apply add_to_manager_registered].
Qed.
End RegistryExtras.

(** ** Flushes *)

Section FlushExtras.
Import django_cache_manager.
Variable glob : string → string → bool.

Local Abbreviation delete_pattern := (delete_pattern glob).
Local Abbreviation flush_app := (flush_app glob).
Local Abbreviation flush := (flush glob).

Lemma filter_glob_size (pattern : string) (d : cache_db) :
  (size (filter (λ kv, glob pattern kv.1 = true) d)
   + size (filter (λ kv, glob pattern kv.1 = false) d) = size d)%nat.
Proof.
  rewrite <-(map_filter_union_complement (λ kv, glob pattern kv.1 = true) d) at 3.
  rewrite map_size_disj_union by apply map_disjoint_filter_complement.
  f_equal. f_equal. apply map_filter_ext. intros k x _. simpl.
  by destruct (glob pattern k).
Qed.

(** The run of [delete_pattern] when the store is reachable. *)
Lemma delete_pattern_effect (pattern : string) (w : world) :
  head (faults w) ≠ Some true →
  ∃ n w', delete_pattern pattern w = (Return n, w')
          ∧ (∀ k, db w' !! k = if glob pattern k then None else db w !! k)
          ∧ n = (Z.of_nat (size (db w)) - Z.of_nat (size (db w')))%Z
          ∧ faults w' = tail (faults w)
          ∧ log w' = log w ++ [EvDeletePattern pattern].
Proof.
  intros Hok. unfold django_cache_manager.delete_pattern.
  rewrite store_op_reached by done. simpl. eexists _, _. split; [done|]. simpl.
  split; [intros k; apply filter_glob_lookup|]. split; [|done].
  pose proof (filter_glob_size pattern (db w)). lia.
Qed.

(** X14.  On a Django backend whose store is reachable, [flush_app] deletes
    every key that matches ["*.<app_name>.*"], leaves every other key with
    its entry, and returns how many entries it removed. *)
Theorem flush_app_removes_matching_keys (app : string) (w : world) :
  head (faults w) ≠ Some true →
  ∃ n w', flush_app app DjangoCache w = (Return n, w')
          ∧ (∀ k, db w' !! k
                  = if glob ("*." +:+ app +:+ ".*") k then None else db w !! k)
          ∧ n = (Z.of_nat (size (db w)) - Z.of_nat (size (db w')))%Z.
Proof.
  intros Hok.
  destruct (delete_pattern_effect ("*." +:+ app +:+ ".*") w Hok)
    as (n & w' & Hrun & Hdb & Hn & _).
  by exists n, w'.
Qed.

(** X15.  On a raw client whose store is reachable for both round trips and
    holds at least one key that matches ["*.<app_name>.*"], [flush_app]
    lists the matching keys, deletes exactly those, and returns a positive
    count: the store it leaves is the one a Django backend would leave. *)
Theorem flush_app_raw_client_with_match (app : string) (w : world) (k0 : string) :
  Forall (λ b, b = false) (take 2 (faults w)) →
  is_Some (db w !! k0) →
  glob ("*." +:+ app +:+ ".*") k0 = true →
  ∃ n w' keys, flush_app app StrictRedis w = (Return n, w')
          ∧ (0 < n)%Z
          ∧ (∀ k, k ∈ keys ↔ is_Some (db w !! k) ∧ glob ("*." +:+ app +:+ ".*") k = true)
          ∧ (∀ k, db w' !! k
                  = if glob ("*." +:+ app +:+ ".*") k then None else db w !! k)
          ∧ log w' = log w ++ [EvKeys ("*." +:+ app +:+ ".*"); EvDeleteKeys keys].
Proof.
  intros Hok Hk0 Hg0.
  set (pattern := "*." +:+ app +:+ ".*") in *.
  set (keys := filter (λ k, glob pattern k = true) (map fst (map_to_list (db w)))).
  assert (∀ k, k ∈ keys ↔ is_Some (db w !! k) ∧ glob pattern k = true) as Hkeys.
  { intros k. unfold keys. rewrite list_elem_of_filter. split.
    - intros [Hg Hin]. split; [|done].
      apply list_elem_of_fmap in Hin as [[k' x] [-> Hin]].
      apply elem_of_map_to_list in Hin. by eexists.
    - intros [[x Hx] Hg]. split; [done|].
      apply list_elem_of_fmap. exists (k, x). split; [done|].
      by apply elem_of_map_to_list. }
  assert (k0 ∈ keys) as Hin0 by (by apply Hkeys).
  assert (head (faults w) ≠ Some true ∧ head (tail (faults w)) ≠ Some true) as [H1 H2].
  { destruct (faults w) as [|b1 [|b2 fs]]; simpl in *; try done.
    - apply Forall_cons in Hok as [-> _]. done.
    - apply Forall_cons in Hok as [-> Hok]. apply Forall_cons in Hok as [-> _]. done. }
  unfold django_cache_manager.flush_app, bind, django_cache_manager.cache_keys.
  rewrite store_op_reached by done. simpl. fold pattern. fold keys.
  unfold redis_delete. rewrite store_op_reached by done. simpl.
  destruct keys as [|key keys'] eqn:Hdestr; [by apply elem_of_nil in Hin0|].
  rewrite <-Hdestr in *. simpl.
  eexists _, _, keys. split; [done|]. simpl. split; [|split; [done|split]].
  - assert (k0 ∈ filter (λ k, is_Some (db w !! k)) (remove_dups keys)) as Hin.
    { apply list_elem_of_filter. split; [done|]. by apply elem_of_remove_dups. }
    destruct (filter _ (remove_dups keys)); [by apply elem_of_nil in Hin|].
    simpl. lia.
  - intros k. rewrite lookup_foldr_delete.
    destruct (decide (k ∈ keys)) as [Hin|Hnin].
    + apply Hkeys in Hin as [_ ->]. done.
    + destruct (glob pattern k) eqn:Hg; [|done].
      destruct (db w !! k) eqn:Hx; [|done].
      exfalso. apply Hnin, Hkeys. by split.
  - by rewrite <-app_assoc.
Qed.

(** X16.  [CacheManager.flush] deletes, on a Django backend whose store is
    reachable, every key that contains the namespace and no other key; on a
    raw client, which has no [delete_pattern], it raises [AttributeError]
    and the store is not touched. *)
Theorem flush_namespace (self : CacheManager) (w : world) :
  match cache self with
  | StrictRedis => flush self w = (Raise AttributeError, w)
  | DjangoCache =>
      head (faults w) ≠ Some true →
      ∃ n w', flush self w = (Return n, w')
              ∧ (∀ k, db w' !! k
                      = if glob ("*" +:+ namespace self +:+ "*") k then None
                        else db w !! k)
              ∧ n = (Z.of_nat (size (db w)) - Z.of_nat (size (db w')))%Z
  end.
Proof.
  unfold django_cache_manager.flush. destruct (cache self); [done|].
  intros Hok.
  destruct (delete_pattern_effect ("*" +:+ namespace self +:+ "*") w Hok)
    as (n & w' & Hrun & Hdb & Hn & _).
  by exists n, w'.
Qed.
End FlushExtras.

(** ** More about [update] *)

Section UpdateExtras.
Import django_cache_manager.
Variable cache_create_key : string → bool → string → list pyval → kwargs → string.
Variable glob : string → string → bool.
Variable timeout : option Z.
Variable accepts_timeout : Z → bool.

Local Abbreviation flush_app := (flush_app glob).
Local Abbreviation record_key := (record_key cache_create_key).
Local Abbreviation view_key := (view_key cache_create_key).
Local Abbreviation view_step := (view_step cache_create_key).
Local Abbreviation view_walk := (view_walk cache_create_key).
Local Abbreviation walk_events := (walk_events cache_create_key).
Local Abbreviation registry_loop := (registry_loop cache_create_key timeout accepts_timeout).
Local Abbreviation update := (update cache_create_key glob timeout accepts_timeout).

Lemma manager_new_events (w w' : world) (evs : list event) :
  log w' = log w ++ evs → new_events w w' = evs.
Proof. intros H. unfold new_events. rewrite H. by rewrite drop_app_length. Qed.

Lemma sets_cons (ev : event) (evs : list event) :
  sets (ev :: evs) = if is_set ev then S (sets evs) else sets evs.
Proof.
  unfold sets. destruct (is_set ev) eqn:Hev.
  - by rewrite filter_cons_True.
  - rewrite filter_cons_False; [done|congruence].
Qed.

Lemma sets_nil : sets [] = 0%nat.
Proof. reflexivity. Qed.

Lemma sets_app (evs1 evs2 : list event) : sets (evs1 ++ evs2) = (sets evs1 + sets evs2)%nat.
Proof. unfold sets. by rewrite filter_app, length_app. Qed.

Lemma sets_none (evs : list event) :
  Forall (λ ev, is_set ev = false) evs → sets evs = 0%nat.
Proof.
  induction 1 as [|ev evs Hev _ IH]; [done|]. by rewrite sets_cons, Hev.
Qed.

(** The first loop logs no deletion, and the count it returns is the count it
    started with plus the number of values it set. *)
Lemma registry_loop_log (self : CacheManager) (recs : list CallRecord) (n : Z) (w : world) :
  ∃ evs, log (registry_loop self recs n w).2 = log w ++ evs
         ∧ Forall (λ ev, is_delete ev = false) evs
         ∧ (sets evs ≤ length recs)%nat
         ∧ ∀ m w', registry_loop self recs n w = (Return m, w') →
                   m = (n + Z.of_nat (sets evs))%Z.
Proof.
  revert n w. induction recs as [|r rest IH]; intros n w.
  { exists []. rewrite app_nil_r. split; [done|]. split; [done|]. split; [done|].
    intros m w' [= <- <-]. rewrite sets_nil. lia. }
  destruct (f_body (func r) (args r) (kw r) (db w)) as [[v|e] d'] eqn:Hf.
  - rewrite (registry_loop_returned _ _ _ _ _ _ _ _ _ _ Hf).
    unfold bind.
    pose proof (cache_set_log accepts_timeout (cache self) (record_key self r) v timeout
                  (after_call r w d')) as Hlog1.
    destruct (cache_set _ _ _ _ _ (after_call r w d')) as [[[]|e] w1] eqn:Hset;
      simpl in Hlog1.
    + destruct (IH (n + 1)%Z w1) as (evs & Hlog & Hnd & Hle & Hcount).
      eexists (_ :: _ :: evs). split; [|split; [|split]].
      * rewrite Hlog, Hlog1. by rewrite <-!app_assoc.
      * by repeat constructor.
      * rewrite !sets_cons, ?sets_nil. simpl. lia.
      * intros m w' Hrun. rewrite (Hcount m w' Hrun), !sets_cons. simpl. lia.
    + eexists [_; _]. split; [|split; [|split]].
      * simpl. rewrite Hlog1. by rewrite <-!app_assoc.
      * by repeat constructor.
      * rewrite !sets_cons, ?sets_nil. simpl. lia.
      * done.
  - destruct (isinstance_Exception e) eqn:He.
    + rewrite (registry_loop_caught _ _ _ _ _ _ _ _ _ _ Hf He).
      destruct (IH n (record_event (EvLogError (f_name (func r))) (after_call r w d')))
        as (evs & Hlog & Hnd & Hle & Hcount).
      eexists (_ :: _ :: evs). split; [|split; [|split]].
      * rewrite Hlog. simpl. by rewrite <-!app_assoc.
      * by repeat constructor.
      * rewrite !sets_cons, ?sets_nil. simpl. lia.
      * intros m w' Hrun. rewrite (Hcount m w' Hrun), !sets_cons. simpl. lia.
    + rewrite (registry_loop_uncaught _ _ _ _ _ _ _ _ _ _ Hf He).
      eexists [_]. split; [done|]. split; [by repeat constructor|].
      split; [rewrite sets_cons, sets_nil; simpl; lia|done].
Qed.

Lemma flush_events_no_set (evs : list event) :
  Forall (λ ev, is_flush_event ev = true) evs →
  Forall (λ ev, is_set ev = false) evs ∧ Forall (λ ev, is_delete ev = false) evs.
Proof.
  induction 1 as [|ev evs Hev _ [IH1 IH2]]; [done|].
  split; constructor; try done; by destruct ev.
Qed.

(** A walk over the views that returns has deleted the key of every view and
    called its function, in order. *)
Lemma view_walk_complete_events (self : CacheManager) (vs : list CallRecord) (w w' : world) :
  view_walk self vs w = (Return tt, w') →
  ∃ evs, log w' = log w ++ evs
         ∧ map erase evs = walk_events vs
         ∧ Forall (λ ev, is_set ev = false) evs.
Proof.
  revert w. induction vs as [|r vs IH]; intros w; simpl.
  { intros [= <-]. exists []. by rewrite app_nil_r. }
  unfold bind at 1.
  unfold django_cache_manager.view_step, bind, cache_delete, store_op, call.
  destruct (faults w) as [|[] fs] eqn:Hfaults; simpl; try done;
    destruct (f_body _ _ _ _) as [[v|e] d'] eqn:Hf; try done;
    intros Hrun; apply IH in Hrun as (evs & Hlog & Herase & Hns);
    simpl in Hlog; eexists (_ :: _ :: evs);
    (split; [by rewrite Hlog, <-!app_assoc|]);
    (split; [simpl; by rewrite Herase|by repeat constructor]).
Qed.

(** X17.  The count [update] returns is the number of values it set in the
    store, and it is at most the number of records of the manager. *)
Theorem update_counts_the_values_it_set (self : CacheManager) (um : registry)
    (w w' : world) (n : Z) :
  update self um w = (Return n, w') →
  n = Z.of_nat (sets (new_events w w'))
  ∧ (0 ≤ n ≤ Z.of_nat (length (items self)))%Z.
Proof.
  unfold django_cache_manager.update, bind.
  destruct (registry_loop_log self (items self) 0 w) as (reg & Hlog & _ & Hle & Hcount).
  destruct (registry_loop self (items self) 0 w) as [[m|e] w0] eqn:Hloop; [|done].
  specialize (Hcount m w0 eq_refl). simpl in Hlog.
  destruct (method_flush_events glob um (app_name self) (cache self) w0)
    as (fl & Hlog1 & Hfl & _).
  destruct (method um "flush_app" (flush_app (app_name self) (cache self)) w0)
    as [[c|e] w1]; [|done].
  simpl in Hlog1.
  destruct (view_walk self (views um) w1) as [[[]|e] w2] eqn:Hwalk; [|done].
  apply view_walk_complete_events in Hwalk as (vw & Hlog2 & _ & Hvw).
  intros [= <- <-].
  rewrite (manager_new_events w w2 (reg ++ fl ++ vw))
    by (rewrite Hlog2, Hlog1, Hlog; by rewrite <-!app_assoc).
  rewrite !sets_app, (sets_none fl), (sets_none vw)
    by (try done; by apply flush_events_no_set).
  lia.
Qed.

(** X18.  When [update] returns, the last events of its log are the walk
    over the shared views: the key of every view record of every namespace
    was deleted and its function called, once each and in the order of
    registration, and no deletion happened before the walk. *)
Theorem update_walks_every_view (self : CacheManager) (um : registry)
    (w w' : world) (n : Z) :
  update self um w = (Return n, w') →
  ∃ before walk,
    new_events w w' = before ++ walk
    ∧ Forall (λ ev, is_delete ev = false) before
    ∧ map erase walk = walk_events (views um).
Proof.
  unfold django_cache_manager.update, bind.
  destruct (registry_loop_log self (items self) 0 w) as (reg & Hlog & Hnd & _).
  destruct (registry_loop self (items self) 0 w) as [[m|e] w0] eqn:Hloop; [|done].
  simpl in Hlog.
  destruct (method_flush_events glob um (app_name self) (cache self) w0)
    as (fl & Hlog1 & Hfl & _).
  destruct (method um "flush_app" (flush_app (app_name self) (cache self)) w0)
    as [[c|e] w1]; [|done].
  simpl in Hlog1.
  destruct (view_walk self (views um) w1) as [[[]|e] w2] eqn:Hwalk; [|done].
  apply view_walk_complete_events in Hwalk as (vw & Hlog2 & Herase & _).
  intros [= <- <-]. exists (reg ++ fl), vw.
  split; [|split; [|done]].
  - apply manager_new_events. rewrite Hlog2, Hlog1, Hlog. by rewrite <-!app_assoc.
  - apply Forall_app. split; [done|]. by apply flush_events_no_set.
Qed.

(** X19.  An exception that does not derive from [Exception] is not caught
    by the first loop: [update] raises it in the state the call left, so the
    later records are not called, nothing is flushed and no view is walked. *)
Theorem uncaught_exception_aborts_update (self : CacheManager) (um : registry)
    (l1 l2 : list CallRecord) (r : CallRecord) (w w1 : world) (m : Z)
    (e : pyexc) (d' : cache_db) :
  items self = l1 ++ r :: l2 →
  registry_loop self l1 0 w = (Return m, w1) →
  f_body (func r) (args r) (kw r) (db w1) = (Raise e, d') →
  isinstance_Exception e = false →
  update self um w = (Raise e, after_call r w1 d').
Proof.
  intros Hitems Hpre Hf He. unfold django_cache_manager.update.
  apply bind_raise. rewrite Hitems, registry_loop_app.
  rewrite (bind_return _ _ _ _ _ Hpre). by eapply registry_loop_uncaught.
Qed.

(** X20.  A failure of the store while a result is being set is not caught
    either: [update] raises [ConnectionError] right after the attempt, the
    result is not stored, the count so far is lost, and the later records,
    the flush and the views are not reached. *)
Theorem failed_set_aborts_update (self : CacheManager) (um : registry)
    (l1 l2 : list CallRecord) (r : CallRecord) (w w1 : world) (m : Z)
    (v : pyval) (d' : cache_db) :
  items self = l1 ++ r :: l2 →
  registry_loop self l1 0 w = (Return m, w1) →
  f_body (func r) (args r) (kw r) (db w1) = (Return v, d') →
  head (faults w1) = Some true →
  update self um w =
    (Raise ConnectionError,
     {| db := d'; faults := tail (faults w1);
        log := log w1 ++ [EvCall (f_name (func r)) (args r) (kw r) (db w1);
                          EvSet (record_key self r) v timeout] |}).
Proof.
  intros Hitems Hpre Hf Hfault. unfold django_cache_manager.update.
  apply bind_raise. rewrite Hitems, registry_loop_app.
  rewrite (bind_return _ _ _ _ _ Hpre).
  rewrite (registry_loop_returned _ _ _ _ _ _ _ _ _ _ Hf).
  apply bind_raise. unfold cache_set. rewrite store_op_fault by done. simpl.
  by rewrite <-app_assoc.
Qed.

End UpdateExtras.

(** ** Examples for the further properties *)

Module extra_examples.
Import cache_manager samples.

Local Abbreviation cached m ttl f := (wrapper None dumps loads accepts m ttl f).

Lemma key_ignores_receiver_witness :
  key manager method_fn (repo_a :: [PyInt 1; PyInt 2])
  = key manager method_fn (repo_b :: [PyInt 1; PyInt 2]).
Proof. apply key_ignores_receiver. reflexivity. Defined.

Lemma miss_saves_encoded_result_witness :
  ∃ w', cached manager (Some 60%Z) plain_fn [PyStr "a"] [] empty_world
        = (Return (PyStr "a"), w')
        ∧ db w' !! "cache:f:a" = Some ("Sa", Some 60%Z)
        ∧ new_events empty_world w'
          = [EvGet "cache:f:a"; EvCall "f" [PyStr "a"] []; EvSet "cache:f:a" "Sa";
             EvExpire "cache:f:a" 60].
Proof.
  destruct (miss_saves_encoded_result None dumps loads accepts manager (Some 60%Z) plain_fn
              [PyStr "a"] [] empty_world (RedisClient "localhost") (PyStr "a") ∅ "Sa")
    as (w' & Hrun & Hkey & _ & Hevents); try done.
  exists w'. split; [exact Hrun|]. split; [exact Hkey|exact Hevents].
Defined.

(** A time-to-live of 2^62 seconds is refused by the server: the call
    raises, and the encoded result stays under the key without a
    time-to-live. *)
Example refused_expire_keeps_the_entry :
  let '(r, w') := cached manager (Some (2 ^ 62)%Z) plain_fn [PyStr "a"] [] empty_world in
  r = Raise ResponseError
  ∧ db w' !! "cache:f:a" = Some ("Sa", None)
  ∧ log w' = [EvGet "cache:f:a"; EvCall "f" [PyStr "a"] []; EvSet "cache:f:a" "Sa";
              EvExpire "cache:f:a" (2 ^ 62)].
Proof. vm_compute. done. Qed.

Lemma keyword_arguments_share_the_entry_witness :
  ∃ w1 w2, cached manager None plain_fn [PyStr "a"] [] empty_world
           = (Return (PyStr "a"), w1)
           ∧ cached manager None plain_fn [PyStr "a"] [("upper", PyBool true)] w1
             = (Return (PyStr "a"), w2)
           ∧ db w2 = db w1
           ∧ invocations (new_events w1 w2) = 0%nat.
Proof.
  apply (keyword_arguments_share_the_entry None dumps loads accepts manager None plain_fn
           [PyStr "a"] [] [("upper", PyBool true)] empty_world
           (RedisClient "localhost") (PyStr "a") ∅ "Sa"); done.
Defined.

Lemma no_connection_no_store_access_witness :
  cached offline_manager (Some 60%Z) plain_fn [PyStr "a"] [] empty_world
  = (Return (PyStr "a"), {| db := ∅; log := [EvCall "f" [PyStr "a"] []] |}).
Proof.
  exact (no_connection_no_store_access None dumps loads accepts offline_manager (Some 60%Z)
           plain_fn [PyStr "a"] [] empty_world (Return (PyStr "a")) ∅ eq_refl eq_refl).
Defined.

Lemma stored_bytes_are_served_unchanged_witness :
  let wn := after_calls (cached manager None plain_fn [PyStr "a"] []) 3 warm_world in
  (cached manager None plain_fn [PyStr "a"] [] wn).1
  = loads (stored (db warm_world) (key manager plain_fn [PyStr "a"])) [PyStr "a"] []
  ∧ db wn = db warm_world
  ∧ new_events warm_world wn = replicate 3 (EvGet (key manager plain_fn [PyStr "a"]))
  ∧ invocations (new_events warm_world wn) = 0%nat.
Proof.
  apply (stored_bytes_are_served_unchanged None dumps loads accepts manager None plain_fn
           [PyStr "a"] [] warm_world (RedisClient "localhost") 3); reflexivity.
Defined.

Lemma miss_failure_saves_nothing_witness :
  ∃ w', cached manager None raising_fn [PyStr "a"] [] empty_world = (Raise ValueError, w')
        ∧ db w' = ∅
        ∧ Forall (λ ev, is_write ev = false) (new_events empty_world w')
        ∧ invocations (new_events empty_world w') = 1%nat.
Proof.
  apply (miss_failure_saves_nothing None dumps loads accepts manager None raising_fn
           [PyStr "a"] [] empty_world ValueError ∅); [by right|by left].
Defined.

Lemma empty_encoding_is_never_served_witness :
  ∃ w1, wrapper None empty_dumps loads accepts manager None plain_fn [PyStr "a"] [] empty_world
        = (Return (PyStr "a"), w1)
        ∧ EvSet (key manager plain_fn [PyStr "a"]) "" ∈ new_events empty_world w1
        ∧ invocations
            (new_events w1
               (wrapper None empty_dumps loads accepts manager None plain_fn [PyStr "a"] [] w1).2)
          = 1%nat.
Proof.
  apply (empty_encoding_is_never_served None empty_dumps loads accepts manager None plain_fn
           [PyStr "a"] [] empty_world (RedisClient "localhost") (PyStr "a") ∅); done.
Defined.
End extra_examples.

Module extra_manager_examples.
Import django_cache_manager django_samples.

Local Abbreviation update := (update create_key star_glob None accepts).
Local Abbreviation registry_loop := (registry_loop create_key None accepts).

Lemma init_builds_empty_managers_witness :
  ∃ um, init CACHE_KEYS ["posts"; "site.shop.items"; "posts"] DjangoCache [] = Return um
        ∧ views um = []
        ∧ NoDup (namespaces um)
        ∧ (∀ ns, ns ∈ namespaces um ↔ ns ∈ ["posts"; "site.shop.items"; "posts"])
        ∧ ∀ ns m, get um ns = Some m →
                  ∃ app, CACHE_KEYS !! ns = Some app ∧ m = mkManager ns DjangoCache app [].
Proof.
  apply init_builds_empty_managers. intros k Hk.
  apply elem_of_cons in Hk as [->|Hk]; [eexists; reflexivity|].
  apply elem_of_cons in Hk as [->|Hk]; [eexists; reflexivity|].
  apply elem_of_cons in Hk as [->|Hk]; [eexists; reflexivity|].
  by apply elem_of_nil in Hk.
Defined.

Lemma init_missing_application_group_witness :
  init CACHE_KEYS ["posts"; "users"] DjangoCache [] = Raise KeyError.
Proof.
  apply (init_missing_application_group CACHE_KEYS ["posts"; "users"] DjangoCache [] "users").
  - apply elem_of_cons. right. by left.
  - reflexivity.
Defined.

Lemma registration_invariant_witness :
  registered
    (run_ops create_key star_glob None accepts
       [AddToManager "posts" false true (constant_fn "render" (PyStr "<html>")) [] [];
        AddToManager "users" false false (constant_fn "count" (PyInt 3)) [] [];
        Setattr "users" shop;
        UpdateAll]
       (mkRegistry [("posts", posts []);
                    ("site.shop.items", mkManager "site.shop.items" DjangoCache "shop" [])] [],
        empty_cache)).1.
Proof.
  apply (registration_invariant create_key star_glob None accepts CACHE_KEYS
           ["posts"; "site.shop.items"] DjangoCache).
  reflexivity.
Defined.

Lemma flush_app_removes_matching_keys_witness :
  ∃ n w', flush_app star_glob "blog" DjangoCache blog_world = (Return n, w')
          ∧ (∀ k, db w' !! k
                  = if star_glob ("*." +:+ "blog" +:+ ".*") k then None
                    else db blog_world !! k)
          ∧ n = (Z.of_nat (size (db blog_world)) - Z.of_nat (size (db w')))%Z.
Proof. apply flush_app_removes_matching_keys. done. Defined.

Lemma flush_app_raw_client_with_match_witness :
  ∃ n w' keys, flush_app star_glob "blog" StrictRedis blog_world = (Return n, w')
          ∧ (0 < n)%Z
          ∧ (∀ k, k ∈ keys ↔ is_Some (db blog_world !! k)
                              ∧ star_glob ("*." +:+ "blog" +:+ ".*") k = true)
          ∧ (∀ k, db w' !! k
                  = if star_glob ("*." +:+ "blog" +:+ ".*") k then None
                    else db blog_world !! k)
          ∧ log w' = log blog_world
                     ++ [EvKeys ("*." +:+ "blog" +:+ ".*"); EvDeleteKeys keys].
Proof.
  apply (flush_app_raw_client_with_match star_glob "blog" blog_world
           "site.blog.posts:count").
  - apply Forall_nil_2.
  - by eexists.
  - reflexivity.
Defined.

Lemma flush_namespace_witness :
  flush star_glob (mkManager "posts" StrictRedis "blog" []) blog_world
  = (Raise AttributeError, blog_world)
  ∧ ∃ n w', flush star_glob (posts []) blog_world = (Return n, w')
            ∧ (∀ k, db w' !! k
                    = if star_glob ("*" +:+ "posts" +:+ "*") k then None
                      else db blog_world !! k)
            ∧ n = (Z.of_nat (size (db blog_world)) - Z.of_nat (size (db w')))%Z.
Proof.
  split.
  - exact (flush_namespace star_glob (mkManager "posts" StrictRedis "blog" []) blog_world).
  - apply (flush_namespace star_glob (posts []) blog_world). done.
Defined.

Lemma update_counts_the_values_it_set_witness :
  let self := posts [r_count; r_broken; r_latest] in
  let um := mkRegistry [("posts", self)] [r_page] in
  2%Z = Z.of_nat (sets (new_events empty_cache (update self um empty_cache).2))
  ∧ (0 ≤ 2 ≤ Z.of_nat (length (items self)))%Z.
Proof.
  intros self um.
  apply (update_counts_the_values_it_set create_key star_glob None accepts self um empty_cache).
  reflexivity.
Defined.

Lemma update_walks_every_view_witness :
  let self := posts [r_count] in
  let um := mkRegistry [("posts", self)] [r_page; r_page] in
  ∃ before walk,
    new_events empty_cache (update self um empty_cache).2 = before ++ walk
    ∧ Forall (λ ev, is_delete ev = false) before
    ∧ map erase walk = walk_events create_key (views um).
Proof.
  intros self um.
  apply (update_walks_every_view create_key star_glob None accepts self um empty_cache _ 1%Z).
  reflexivity.
Defined.

Lemma uncaught_exception_aborts_update_witness :
  let self := posts [r_count; r_exit; r_latest] in
  let um := mkRegistry [("posts", self)] [r_page] in
  let w1 := (registry_loop self [r_count] 0 empty_cache).2 in
  update self um empty_cache = (Raise SystemExit, after_call r_exit w1 (db w1)).
Proof.
  intros self um w1.
  apply (uncaught_exception_aborts_update create_key star_glob None accepts self um
           [r_count] [r_latest] r_exit empty_cache w1 1%Z); reflexivity.
Defined.

Lemma failed_set_aborts_update_witness :
  let self := posts [r_count; r_latest] in
  let um := mkRegistry [("posts", self)] [r_page] in
  update self um first_trip_fails
  = (Raise ConnectionError,
     {| db := ∅; faults := [];
        log := [EvCall "count" [] [] ∅; EvSet "posts:count" (PyInt 3) None] |}).
Proof.
  intros self um.
  exact (failed_set_aborts_update create_key star_glob None accepts self um
           [] [r_latest] r_count first_trip_fails first_trip_fails 0%Z (PyInt 3) ∅
           eq_refl eq_refl eq_refl eq_refl).
Defined.

End extra_manager_examples.
